(** * cv_analyser: entities, response normalisation and business rules

    A shallow embedding of the core of the repository:

    - [src/domain/entities/__init__.py]   the dataclasses and their derived
      properties (modules [Skill] ... [Match]);
    - [src/domain/services/__init__.py]   [MatchingService] and
      [ValidationService];
    - [src/infrastructure/ai/converters.py] the converters from a decoded
      JSON payload to entities (module [Converters]; the payload values are
      [pyval], the entities they build are the records of module [Dyn]);
    - [src/infrastructure/ai/__init__.py]  [GeminiAIService]: the isolation of
      the JSON object in the model's answer and the error wrapping.

    Conventions of the embedding.

    - A Python [str] is a [string] whose characters are code points below
      256; [strip], [lower], [find], [rfind] and slicing follow CPython on
      that range.
    - A Python [int] is a [Z].  A Python [float] is an exact rational [Q]:
      rounding of binary64 arithmetic is not modelled, comparisons of scores
      are stated with [==] on [Q].
    - [Optional[T]] is [option T]; [None] is the Python [None].
    - A raised exception is the [Raise] case of [result]; the exception
      classes the code can meet are the constructors of [exn].
    - [datetime] values are opaque time stamps; [datetime.now()] is an
      argument of the function that calls it. *)

From Stdlib Require Import List String Ascii Bool ZArith QArith Qminmax Lia Lqa.
From Stdlib Require Import PrimFloat.
From Stdlib Require Import DecimalString.
Import ListNotations.

Local Open Scope string_scope.

(** ** Python builtins *)

Module Py.

(** [str.isspace] on one character, for code points below 256. *)
Definition is_space (c : ascii) : bool :=
  let n := nat_of_ascii c in
  ((9 <=? n) && (n <=? 13) || (28 <=? n) && (n <=? 32)
   || (n =? 133) || (n =? 160))%nat.

(** [str.lower] on one character: A-Z and the Latin-1 capitals. *)
Definition lower_char (c : ascii) : ascii :=
  let n := nat_of_ascii c in
  if ((65 <=? n) && (n <=? 90)
      || (192 <=? n) && (n <=? 222) && negb (n =? 215))%nat
  then ascii_of_nat (n + 32) else c.

Fixpoint lower (s : string) : string :=
  match s with
  | EmptyString => EmptyString
  | String c t => String (lower_char c) (lower t)
  end.

Fixpoint lstrip (s : string) : string :=
  match s with
  | EmptyString => EmptyString
  | String c t => if is_space c then lstrip t else s
  end.

Fixpoint rstrip (s : string) : string :=
  match s with
  | EmptyString => EmptyString
  | String c t =>
      match rstrip t with
      | EmptyString => if is_space c then EmptyString else String c EmptyString
      | r => String c r
      end
  end.

(** [s.strip()] *)
Definition strip (s : string) : string := rstrip (lstrip s).

(** Truth value of a [str]: [not s] is [negb (truthy s)]. *)
Definition truthy (s : string) : bool :=
  match s with EmptyString => false | _ => true end.

(** Position of the first / last occurrence of a character. *)
Fixpoint index_of (c : ascii) (s : string) : option nat :=
  match s with
  | EmptyString => None
  | String x t =>
      if Ascii.eqb x c then Some O else option_map S (index_of c t)
  end.

Fixpoint rindex_of (c : ascii) (s : string) : option nat :=
  match s with
  | EmptyString => None
  | String x t =>
      match rindex_of c t with
      | Some k => Some (S k)
      | None => if Ascii.eqb x c then Some O else None
      end
  end.

(** [s.find(c)] and [s.rfind(c)] for a one-character [c]: -1 when absent. *)
Definition find (s : string) (c : ascii) : Z :=
  match index_of c s with Some k => Z.of_nat k | None => (-1)%Z end.

Definition rfind (s : string) (c : ascii) : Z :=
  match rindex_of c s with Some k => Z.of_nat k | None => (-1)%Z end.

(** Slice bounds: a negative index counts from the end, and both ends are
    clipped to the string. *)
Definition norm_index (len i : Z) : Z :=
  if (i <? 0)%Z then Z.max 0 (i + len) else Z.min i len.

(** [s[a:b]] *)
Definition slice (s : string) (a b : Z) : string :=
  let len := Z.of_nat (String.length s) in
  let a' := norm_index len a in
  let b' := norm_index len b in
  substring (Z.to_nat a') (Z.to_nat (b' - a')) s.

(** [sep.join(l)] *)
Fixpoint join (sep : string) (l : list string) : string :=
  match l with
  | [] => EmptyString
  | [x] => x
  | x :: t => x ++ sep ++ join sep t
  end.

(** [x in l] for a list of strings. *)
Definition str_in (x : string) (l : list string) : bool :=
  existsb (String.eqb x) l.

(** [max(a, b)] and [min(a, b)] on numbers: the first argument is kept
    unless the second is strictly greater (smaller). *)
Definition max (a b : Q) : Q := if Qle_bool b a then a else b.
Definition min (a b : Q) : Q := if Qle_bool a b then a else b.

(** [sum] of a list of integers. *)
Definition sum (l : list Z) : Z := fold_left Z.add l 0%Z.

(** [s.startswith(prefix)] and [s.endswith(suffix)], on [str] and on
    [bytes] alike. *)
Definition startswith (s prefix : string) : bool := String.prefix prefix s.

Definition endswith (s suffix : string) : bool :=
  (String.length suffix <=? String.length s)%nat
  && String.eqb
       (substring (String.length s - String.length suffix)
          (String.length suffix) s)
       suffix.

(** [str(n)] for an integer. *)
Definition str_int (n : Z) : string := NilZero.string_of_int (Z.to_int n).

(** [os.path.join(a, b)] on a POSIX system. *)
Definition path_join (a b : string) : string :=
  if startswith b "/" then b
  else if negb (truthy a) || endswith a "/" then a ++ b
  else a ++ "/" ++ b.

End Py.

(** ** Exceptions *)

Inductive exn : Type :=
| AttributeError (msg : string)
| TypeError (msg : string)
| ValueError (msg : string)
| JSONDecodeError (msg : string)
| AIServiceError (msg : string).

(** [str(e)] *)
Definition str_exn (e : exn) : string :=
  match e with
  | AttributeError m | TypeError m | ValueError m
  | JSONDecodeError m | AIServiceError m => m
  end.

Inductive result (A : Type) : Type :=
| Ok (a : A)
| Raise (e : exn).
Arguments Ok {A} a.
Arguments Raise {A} e.

Definition bind {A B : Type} (m : result A) (f : A -> result B) : result B :=
  match m with
  | Ok a => f a
  | Raise e => Raise e
  end.

Notation "x <- m ;; k" := (bind m (fun x => k))
  (at level 61, m at next level, right associativity).

Definition datetime : Type := Z.

(** ** Entities ([src/domain/entities/__init__.py]) *)

(** [if self.x is None: self.x = []], the step every [__post_init__]
    applies to each list-valued field. *)
Definition or_empty {A : Type} (o : option (list A)) : option (list A) :=
  match o with
  | None => Some []
  | Some l => Some l
  end.

Inductive MatchStatus : Type := PENDING | IN_PROGRESS | COMPLETED | FAILED.

Inductive SkillLevel : Type := BEGINNER | INTERMEDIATE | ADVANCED | EXPERT.

Module SkillLevelEnum.

(** The [value] of each member. *)
Definition value (l : SkillLevel) : string :=
  match l with
  | BEGINNER => "beginner"
  | INTERMEDIATE => "intermediate"
  | ADVANCED => "advanced"
  | EXPERT => "expert"
  end.

Definition members : list SkillLevel :=
  [BEGINNER; INTERMEDIATE; ADVANCED; EXPERT].

(** [SkillLevel(v)]: lookup by value, [ValueError] when no member has it. *)
Definition of_value (v : string) : result SkillLevel :=
  match List.find (fun l => String.eqb (value l) v) members with
  | Some l => Ok l
  | None => Raise (ValueError ("'" ++ v ++ "' is not a valid SkillLevel"))
  end.

End SkillLevelEnum.

Module Skill.
Record t : Type := mk {
  name : string;
  level : SkillLevel;
  years_experience : option Z;
  category : option string
}.
End Skill.

Module Education.
Record t : Type := mk {
  degree : string;
  institution : string;
  field_of_study : string;
  graduation_year : option Z;
  gpa : option Q
}.
End Education.

Module Experience.
Record t : Type := mk {
  position : string;
  company : string;
  duration_months : Z;
  description : string;
  skills_used : list string;
  start_date : option datetime;
  end_date : option datetime
}.
End Experience.

Module CV.
Record t : Type := mk {
  id : option string;
  filename : string;
  raw_text : string;
  name : option string;
  email : option string;
  phone : option string;
  location : option string;
  skills : option (list Skill.t);
  education : option (list Education.t);
  experience : option (list Experience.t);
  certifications : option (list string);
  languages : option (list string);
  created_at : option datetime;
  updated_at : option datetime
}.

(** The field values when every keyword argument is left out. *)
Definition defaults : t :=
  mk None "" "" None None None None None None None None None None None.

(** [__post_init__] *)
Definition post_init (self : t) : t :=
  mk (id self) (filename self) (raw_text self)
     (name self) (email self) (phone self) (location self)
     (or_empty (skills self))
     (or_empty (education self))
     (or_empty (experience self))
     (or_empty (certifications self))
     (or_empty (languages self))
     (created_at self) (updated_at self).

(** [CV(...)]: the generated [__init__] stores the arguments and calls
    [__post_init__]. *)
Definition init (args : t) : t := post_init args.

Definition total_experience_years (self : t) : Q :=
  match experience self with
  | Some (e :: l) =>
      inject_Z (Py.sum (map Experience.duration_months (e :: l))) / 12
  | _ => 0
  end.

Definition skill_names (self : t) : list string :=
  match skills self with
  | Some (s :: l) => map Skill.name (s :: l)
  | _ => []
  end.
End CV.

Module JobRequirement.
Record t : Type := mk {
  skill : string;
  required_level : SkillLevel;
  is_mandatory : bool;
  weight : Q
}.
End JobRequirement.

Module Job.
Record t : Type := mk {
  id : option string;
  title : string;
  company : string;
  description : string;
  required_skills : option (list JobRequirement.t);
  preferred_skills : option (list JobRequirement.t);
  min_experience_years : Z;
  required_education : option (list string);
  required_certifications : option (list string);
  location : option string;
  salary_range : option string;
  created_at : option datetime;
  updated_at : option datetime
}.

Definition defaults : t :=
  mk None "" "" "" None None 0%Z None None None None None None.

(** [__post_init__] *)
Definition post_init (self : t) : t :=
  mk (id self) (title self) (company self) (description self)
     (or_empty (required_skills self))
     (or_empty (preferred_skills self))
     (min_experience_years self)
     (or_empty (required_education self))
     (or_empty (required_certifications self))
     (location self) (salary_range self)
     (created_at self) (updated_at self).

Definition init (args : t) : t := post_init args.

Definition all_required_skill_names (self : t) : list string :=
  match required_skills self with
  | Some (r :: l) => map JobRequirement.skill (r :: l)
  | _ => []
  end.

Definition mandatory_skills (self : t) : list JobRequirement.t :=
  match required_skills self with
  | Some (r :: l) => filter JobRequirement.is_mandatory (r :: l)
  | _ => []
  end.
End Job.

Module SkillMatch.
Record t : Type := mk {
  skill_name : string;
  cv_has_skill : bool;
  cv_skill_level : option SkillLevel;
  required_level : option SkillLevel;
  match_score : Q;
  gap_analysis : option string
}.
End SkillMatch.

Module MatchAnalysis.
Record t : Type := mk {
  cv_id : string;
  job_id : string;
  overall_score : Q;
  skills_score : Q;
  experience_score : Q;
  education_score : Q;
  skill_matches : option (list SkillMatch.t);
  missing_skills : option (list string);
  matching_skills : option (list string);
  experience_gap_years : Q;
  recommendations : option (list string);
  interview_tips : option (list string);
  analysis_date : option datetime;
  ai_model_used : option string
}.

(** Defaults of every field but the two required ones. *)
Definition defaults (cv_id job_id : string) : t :=
  mk cv_id job_id 0 0 0 0 None None None 0 None None None None.

(** [__post_init__] *)
Definition post_init (self : t) : t :=
  mk (cv_id self) (job_id self)
     (overall_score self) (skills_score self)
     (experience_score self) (education_score self)
     (or_empty (skill_matches self))
     (or_empty (missing_skills self))
     (or_empty (matching_skills self))
     (experience_gap_years self)
     (or_empty (recommendations self))
     (or_empty (interview_tips self))
     (analysis_date self) (ai_model_used self).

Definition init (args : t) : t := post_init args.

Definition set_overall_score (self : t) (v : Q) : t :=
  mk (cv_id self) (job_id self) v (skills_score self)
     (experience_score self) (education_score self)
     (skill_matches self) (missing_skills self) (matching_skills self)
     (experience_gap_years self) (recommendations self)
     (interview_tips self) (analysis_date self) (ai_model_used self).

Definition set_recommendations (self : t) (v : option (list string)) : t :=
  mk (cv_id self) (job_id self) (overall_score self) (skills_score self)
     (experience_score self) (education_score self)
     (skill_matches self) (missing_skills self) (matching_skills self)
     (experience_gap_years self) v
     (interview_tips self) (analysis_date self) (ai_model_used self).
End MatchAnalysis.

Module Match.
Record t : Type := mk {
  id : option string;
  cv_id : string;
  job_id : string;
  status : MatchStatus;
  analysis : option MatchAnalysis.t;
  error_message : option string;
  created_at : option datetime;
  completed_at : option datetime;
  processing_time_seconds : option Q
}.

Definition is_completed (self : t) : bool :=
  match status self, analysis self with
  | COMPLETED, Some _ => true
  | _, _ => false
  end.

Definition recommendation_level (self : t) : string :=
  match analysis self with
  | None => "Unknown"
  | Some a =>
      let score := MatchAnalysis.overall_score a in
      if Qle_bool 80 score then "Highly Recommended"
      else if Qle_bool 60 score then "Recommended"
      else if Qle_bool 40 score then "Consider with Caution"
      else "Not Recommended"
  end.
End Match.

(** ** Domain services ([src/domain/services/__init__.py]) *)

Module MatchingService.

Section Rules.

(** [f"{x:.1f}"], the fixed-point formatting of a float: a builtin whose
    digits no rule depends on. *)
Variable format_1f : Q -> string.

(** The education block of [_generate_recommendations]: what it appends. *)
Definition edu_line (cv : CV.t) (job : Job.t) : list string :=
  match Job.required_education job, CV.education cv with
  | Some (r :: rs), Some (e :: es) =>
      let cv_degrees :=
        map (fun edu => Py.lower (Education.degree edu)) (e :: es) in
      let missing_education :=
        filter (fun edu => negb (Py.str_in (Py.lower edu) cv_degrees))
               (r :: rs) in
      match missing_education with
      | m :: _ => ["Consider pursuing: " ++ m]
      | [] => []
      end
  | _, _ => []
  end.

Definition _generate_recommendations
  (cv : CV.t) (job : Job.t) (analysis : MatchAnalysis.t) : list string :=
  let recommendations := [] in
  let recommendations :=
    match MatchAnalysis.missing_skills analysis with
    | Some (s :: l) =>
        (recommendations
           ++ [("Consider learning: "
                ++ Py.join ", " (firstn 3 (s :: l)))%string])%list
    | _ => recommendations
    end in
  let recommendations :=
    if negb (Qle_bool (MatchAnalysis.experience_gap_years analysis) 0)
    then (recommendations
            ++ [("Gain "
                 ++ format_1f
                      (MatchAnalysis.experience_gap_years analysis)
                 ++ " more years of relevant experience")%string])%list
    else recommendations in
  (recommendations ++ edu_line cv job)%list.

(** The list [missing_mandatory] of rule 1. *)
Definition missing_mandatory (cv : CV.t) (job : Job.t) : list string :=
  let mandatory_skills :=
    map JobRequirement.skill (Job.mandatory_skills job) in
  filter (fun skill => negb (Py.str_in skill (CV.skill_names cv)))
         mandatory_skills.

Definition _apply_business_rules
  (analysis : MatchAnalysis.t) (cv : CV.t) (job : Job.t)
  : result MatchAnalysis.t :=
  (* Rule 1 *)
  let analysis :=
    match missing_mandatory cv job with
    | [] => analysis
    | mm =>
        let penalty := inject_Z (Z.of_nat (List.length mm)) * (1 # 10) in
        MatchAnalysis.set_overall_score analysis
          (Py.max 0 (MatchAnalysis.overall_score analysis - penalty * 100))
    end in
  (* Rule 2 *)
  let analysis :=
    if Qle_bool (inject_Z (Job.min_experience_years job))
                (CV.total_experience_years cv)
    then
      let exp_diff :=
        CV.total_experience_years cv
        - inject_Z (Job.min_experience_years job) in
      let boost := Py.min (1 # 10) (exp_diff * (2 # 100)) in
      MatchAnalysis.set_overall_score analysis
        (Py.min 100 (MatchAnalysis.overall_score analysis + boost * 100))
    else analysis in
  (* Rule 3 *)
  match MatchAnalysis.recommendations analysis with
  | None =>
      Raise (AttributeError
               "'NoneType' object has no attribute 'extend'")
  | Some recs =>
      Ok (MatchAnalysis.set_recommendations analysis
            (Some (recs ++ _generate_recommendations cv job analysis)%list))
  end.

End Rules.

End MatchingService.

Module ValidationService.

Definition validate_cv (cv : CV.t) : list string :=
  let errors := [] in
  let errors :=
    if negb (Py.truthy (Py.strip (CV.raw_text cv)))
    then (errors ++ ["CV must contain text content"])%list else errors in
  let errors :=
    if negb (Py.truthy (CV.filename cv))
    then (errors ++ ["CV must have a filename"])%list else errors in
  errors.

Definition validate_job (job : Job.t) : list string :=
  let errors := [] in
  let errors :=
    if negb (Py.truthy (Py.strip (Job.title job)))
    then (errors ++ ["Job must have a title"])%list else errors in
  let errors :=
    if negb (Py.truthy (Py.strip (Job.description job)))
    then (errors ++ ["Job must have a description"])%list else errors in
  let errors :=
    if (Job.min_experience_years job <? 0)%Z
    then (errors ++ ["Minimum experience years cannot be negative"])%list
    else errors in
  errors.

(** [not x or not x.strip()] *)
Definition blank_id (x : string) : bool :=
  negb (Py.truthy x) || negb (Py.truthy (Py.strip x)).

Definition validate_match_request (cv_id job_id : string) : list string :=
  let errors := [] in
  let errors :=
    if blank_id cv_id
    then (errors ++ ["CV ID is required"])%list else errors in
  let errors :=
    if blank_id job_id
    then (errors ++ ["Job ID is required"])%list else errors in
  errors.

End ValidationService.

(** ** Decoded JSON payloads

    What [json.loads] returns: [None], [bool], [int], [float], [str], [list]
    and [dict] with string keys.  A [dict] is the list of its items; a key is
    looked up from the front. *)

#[local] Set Warnings "-register-all".

Inductive pyval : Type :=
| PNone
| PBool (b : bool)
| PInt (z : Z)
| PFloat (q : Q)
| PStr (s : string)
| PList (l : list pyval)
| PDict (d : list (string * pyval)).

Module PyVal.

Definition type_name (v : pyval) : string :=
  match v with
  | PNone => "NoneType"
  | PBool _ => "bool"
  | PInt _ => "int"
  | PFloat _ => "float"
  | PStr _ => "str"
  | PList _ => "list"
  | PDict _ => "dict"
  end.

Definition no_attribute {A : Type} (v : pyval) (attr : string) : result A :=
  Raise (AttributeError
           ("'" ++ type_name v ++ "' object has no attribute '"
                ++ attr ++ "'")).

Fixpoint dict_get (d : list (string * pyval)) (k : string) (default : pyval)
  : pyval :=
  match d with
  | [] => default
  | (k', v) :: rest => if String.eqb k' k then v else dict_get rest k default
  end.

(** [v.get(k, default)]; [v.get(k)] is [get v k PNone]. *)
Definition get (v : pyval) (k : string) (default : pyval) : result pyval :=
  match v with
  | PDict d => Ok (dict_get d k default)
  | _ => no_attribute v "get"
  end.

(** [v.lower()] *)
Definition lower (v : pyval) : result string :=
  match v with
  | PStr s => Ok (Py.lower s)
  | _ => no_attribute v "lower"
  end.

Fixpoint chars (s : string) : list pyval :=
  match s with
  | EmptyString => []
  | String c t => PStr (String c EmptyString) :: chars t
  end.

(** The items a [for] loop over [v] visits. *)
Definition iter (v : pyval) : result (list pyval) :=
  match v with
  | PList l => Ok l
  | PStr s => Ok (chars s)
  | PDict d => Ok (map (fun kv => PStr (fst kv)) d)
  | _ => Raise (TypeError
                  ("'" ++ type_name v ++ "' object is not iterable"))
  end.

(** Truth value. *)
Definition truth (v : pyval) : bool :=
  match v with
  | PNone => false
  | PBool b => b
  | PInt z => negb (z =? 0)%Z
  | PFloat q => negb (Qeq_bool q 0)
  | PStr s => Py.truthy s
  | PList l => match l with [] => false | _ => true end
  | PDict d => match d with [] => false | _ => true end
  end.

End PyVal.

(** ** Entities as the converters build them

    A dataclass does not check its annotations: a field filled from the
    payload holds whatever value the payload has there.  The records below
    are the dataclasses of the entity module with such fields typed
    [pyval]; the fields the converters decide themselves keep their type. *)

Module Dyn.

Module Skill.
Record t : Type := mk {
  name : pyval;
  level : SkillLevel;
  years_experience : pyval;
  category : pyval
}.
End Skill.

Module Education.
Record t : Type := mk {
  degree : pyval;
  institution : pyval;
  field_of_study : pyval;
  graduation_year : pyval;
  gpa : pyval
}.
End Education.

Module Experience.
Record t : Type := mk {
  position : pyval;
  company : pyval;
  duration_months : pyval;
  description : pyval;
  skills_used : pyval;
  start_date : option datetime;
  end_date : option datetime
}.
End Experience.

(** [None] becomes [[]], as in each [__post_init__]. *)
Definition or_empty (v : pyval) : pyval :=
  match v with
  | PNone => PList []
  | _ => v
  end.

Module CV.
Record t : Type := mk {
  id : option string;
  filename : string;
  raw_text : string;
  name : pyval;
  email : pyval;
  phone : pyval;
  location : pyval;
  skills : list Skill.t;
  education : list Education.t;
  experience : list Experience.t;
  certifications : pyval;
  languages : pyval;
  created_at : option datetime;
  updated_at : option datetime
}.

(** [__post_init__]; [skills], [education] and [experience] are passed
    as lists by the converter. *)
Definition post_init (self : t) : t :=
  mk (id self) (filename self) (raw_text self)
     (name self) (email self) (phone self) (location self)
     (skills self) (education self) (experience self)
     (or_empty (certifications self))
     (or_empty (languages self))
     (created_at self) (updated_at self).
(** A number in the course of a [sum]: an [int] or a [float]. *)
Inductive pynum : Type :=
| NInt (z : Z)
| NFloat (q : Q).

(** [acc + v]: defined on numbers, a boolean counting as 0 or 1. *)
Definition add (acc : pynum) (v : pyval) : result pynum :=
  match acc, v with
  | NInt a, PInt b => Ok (NInt (a + b))
  | NInt a, PBool b => Ok (NInt (a + (if b then 1 else 0)))
  | NInt a, PFloat q => Ok (NFloat (inject_Z a + q))
  | NFloat a, PInt b => Ok (NFloat (a + inject_Z b))
  | NFloat a, PBool b => Ok (NFloat (a + (if b then 1 else 0)))
  | NFloat a, PFloat q => Ok (NFloat (a + q))
  | _, _ =>
      Raise (TypeError
               ("unsupported operand type(s) for +: '"
                  ++ match acc with NInt _ => "int" | NFloat _ => "float" end
                  ++ "' and '" ++ PyVal.type_name v ++ "'"))
  end.

(** [sum(values)] from [acc] on. *)
Fixpoint sum_from (values : list pyval) (acc : pynum) : result pynum :=
  match values with
  | [] => Ok acc
  | v :: rest => acc' <- add acc v ;; sum_from rest acc'
  end.

(** [total_experience_years] on a CV whose durations are what the payload
    gave. *)
Definition total_experience_years (self : t) : result Q :=
  match experience self with
  | [] => Ok 0
  | exps =>
      total <- sum_from (map Experience.duration_months exps) (NInt 0) ;;
      Ok (match total with NInt z => inject_Z z | NFloat q => q end / 12)
  end.

(** [self.id = id; self.filename = filename] *)
Definition set_id_filename (self : t) (new_id filename' : string) : t :=
  mk (Some new_id) filename' (raw_text self)
     (name self) (email self) (phone self) (location self)
     (skills self) (education self) (experience self)
     (certifications self) (languages self)
     (created_at self) (updated_at self).
End CV.

Module JobRequirement.
Record t : Type := mk {
  skill : pyval;
  required_level : SkillLevel;
  is_mandatory : pyval;
  weight : pyval
}.
End JobRequirement.

Module Job.
Record t : Type := mk {
  id : option string;
  title : pyval;
  company : pyval;
  description : string;
  required_skills : list JobRequirement.t;
  preferred_skills : list JobRequirement.t;
  min_experience_years : pyval;
  required_education : pyval;
  required_certifications : pyval;
  location : pyval;
  salary_range : pyval;
  created_at : option datetime;
  updated_at : option datetime
}.

Definition post_init (self : t) : t :=
  mk (id self) (title self) (company self) (description self)
     (required_skills self) (preferred_skills self)
     (min_experience_years self)
     (or_empty (required_education self))
     (or_empty (required_certifications self))
     (location self) (salary_range self)
     (created_at self) (updated_at self).
End Job.

Module SkillMatch.
Record t : Type := mk {
  skill_name : pyval;
  cv_has_skill : pyval;
  cv_skill_level : option SkillLevel;
  required_level : option SkillLevel;
  match_score : pyval;
  gap_analysis : pyval
}.
End SkillMatch.

Module MatchAnalysis.
Record t : Type := mk {
  cv_id : string;
  job_id : string;
  overall_score : pyval;
  skills_score : pyval;
  experience_score : pyval;
  education_score : pyval;
  skill_matches : list SkillMatch.t;
  missing_skills : pyval;
  matching_skills : pyval;
  experience_gap_years : pyval;
  recommendations : pyval;
  interview_tips : pyval;
  analysis_date : option datetime;
  ai_model_used : option string
}.

Definition post_init (self : t) : t :=
  mk (cv_id self) (job_id self)
     (overall_score self) (skills_score self)
     (experience_score self) (education_score self)
     (skill_matches self)
     (or_empty (missing_skills self))
     (or_empty (matching_skills self))
     (experience_gap_years self)
     (or_empty (recommendations self))
     (or_empty (interview_tips self))
     (analysis_date self) (ai_model_used self).
End MatchAnalysis.

End Dyn.

(** ** Converters ([src/infrastructure/ai/converters.py]) *)

Module Converters.

Import PyVal.

Definition valid_levels : list string :=
  ["beginner"; "intermediate"; "advanced"; "expert"].

(** [except (ValueError, TypeError)]: does the clause catch [e]?
    [json.JSONDecodeError] is a subclass of [ValueError]. *)
Definition is_value_or_type_error (e : exn) : bool :=
  match e with
  | ValueError _ | TypeError _ | JSONDecodeError _ => true
  | _ => false
  end.

(** [for x in items: try: acc.append(body(x)) except (ValueError,
    TypeError): continue] *)
Fixpoint for_try {A : Type} (body : pyval -> result A)
  (items : list pyval) (acc : list A) : result (list A) :=
  match items with
  | [] => Ok acc
  | x :: rest =>
      match body x with
      | Ok a => for_try body rest (acc ++ [a])%list
      | Raise e =>
          if is_value_or_type_error e then for_try body rest acc
          else Raise e
      end
  end.

(** [for x in items: acc.append(body(x))], with no handler. *)
Fixpoint for_each {A : Type} (body : pyval -> result A)
  (items : list pyval) (acc : list A) : result (list A) :=
  match items with
  | [] => Ok acc
  | x :: rest =>
      a <- body x ;;
      for_each body rest (acc ++ [a])%list
  end.

(** The level of a skill or of a requirement, read under [key]. *)
Definition level_of (record : pyval) (key : string) : result string :=
  v <- get record key (PStr "beginner") ;;
  level_str <- lower v ;;
  Ok (if negb (Py.str_in level_str valid_levels) then "beginner"
      else level_str).

(** Body of the [skills] loop of [convert_to_cv_entity]. *)
Definition skill_of (skill_data : pyval) : result Dyn.Skill.t :=
  level_str <- level_of skill_data "level" ;;
  name <- get skill_data "name" (PStr "") ;;
  level <- SkillLevelEnum.of_value level_str ;;
  years_experience <- get skill_data "years_experience" PNone ;;
  category <- get skill_data "category" PNone ;;
  Ok (Dyn.Skill.mk name level years_experience category).

(** Body of the [education] loop. *)
Definition education_of (edu_data : pyval) : result Dyn.Education.t :=
  degree <- get edu_data "degree" (PStr "") ;;
  institution <- get edu_data "institution" (PStr "") ;;
  field_of_study <- get edu_data "field_of_study" (PStr "") ;;
  graduation_year <- get edu_data "graduation_year" PNone ;;
  Ok (Dyn.Education.mk degree institution field_of_study graduation_year
        PNone).

(** Body of the [experience] loop. *)
Definition experience_of (exp_data : pyval) : result Dyn.Experience.t :=
  position <- get exp_data "position" (PStr "") ;;
  company <- get exp_data "company" (PStr "") ;;
  duration_months <- get exp_data "duration_months" (PInt 0) ;;
  description <- get exp_data "description" (PStr "") ;;
  skills_used <- get exp_data "skills_used" (PList []) ;;
  Ok (Dyn.Experience.mk position company duration_months description
        skills_used None None).

Definition convert_to_cv_entity
  (data : pyval) (raw_text : string) (now : datetime) : result Dyn.CV.t :=
  v <- get data "skills" (PList []) ;;
  items <- iter v ;;
  skills <- for_try skill_of items [] ;;
  v <- get data "education" (PList []) ;;
  items <- iter v ;;
  education <- for_each education_of items [] ;;
  v <- get data "experience" (PList []) ;;
  items <- iter v ;;
  experience <- for_each experience_of items [] ;;
  name <- get data "name" PNone ;;
  email <- get data "email" PNone ;;
  phone <- get data "phone" PNone ;;
  location <- get data "location" PNone ;;
  certifications <- get data "certifications" (PList []) ;;
  languages <- get data "languages" (PList []) ;;
  Ok (Dyn.CV.post_init
        (Dyn.CV.mk None "" raw_text name email phone location
           skills education experience certifications languages
           (Some now) None)).

(** Body of the [required_skills] loop ([preferred = false]) and of the
    [preferred_skills] loop ([preferred = true]) of
    [convert_to_job_entity]. *)
Definition requirement_of (preferred : bool) (skill_data : pyval)
  : result Dyn.JobRequirement.t :=
  level_str <- level_of skill_data "required_level" ;;
  skill <- get skill_data "skill" (PStr "") ;;
  required_level <- SkillLevelEnum.of_value level_str ;;
  is_mandatory <-
    (if preferred then Ok (PBool false)
     else get skill_data "is_mandatory" (PBool true)) ;;
  weight <-
    get skill_data "weight" (PFloat (if preferred then 1 # 2 else 1)) ;;
  Ok (Dyn.JobRequirement.mk skill required_level is_mandatory weight).

Definition convert_to_job_entity
  (data : pyval) (description : string) (now : datetime)
  : result Dyn.Job.t :=
  v <- get data "required_skills" (PList []) ;;
  items <- iter v ;;
  required_skills <- for_try (requirement_of false) items [] ;;
  v <- get data "preferred_skills" (PList []) ;;
  items <- iter v ;;
  preferred_skills <- for_try (requirement_of true) items [] ;;
  title <- get data "title" (PStr "") ;;
  company <- get data "company" (PStr "") ;;
  min_experience_years <- get data "min_experience_years" (PInt 0) ;;
  required_education <- get data "required_education" (PList []) ;;
  required_certifications <-
    get data "required_certifications" (PList []) ;;
  location <- get data "location" PNone ;;
  salary_range <- get data "salary_range" PNone ;;
  Ok (Dyn.Job.post_init
        (Dyn.Job.mk None title company description
           required_skills preferred_skills min_experience_years
           required_education required_certifications
           location salary_range (Some now) None)).

(** [SkillLevel(v.lower())] when [v] is true and its lower case is a valid
    level, [None] otherwise. *)
Definition optional_level (v : pyval) : result (option SkillLevel) :=
  if truth v then
    s <- lower v ;;
    if Py.str_in s valid_levels then
      s' <- lower v ;;
      l <- SkillLevelEnum.of_value s' ;;
      Ok (Some l)
    else Ok None
  else Ok None.

(** Body of the [skill_matches] loop of [convert_to_match_analysis]. *)
Definition skill_match_of (match_data : pyval) : result Dyn.SkillMatch.t :=
  cv_level <- get match_data "cv_skill_level" PNone ;;
  req_level <- get match_data "required_level" PNone ;;
  cv_skill_level <- optional_level cv_level ;;
  required_level <- optional_level req_level ;;
  skill_name <- get match_data "skill_name" (PStr "") ;;
  cv_has_skill <- get match_data "cv_has_skill" (PBool false) ;;
  match_score <- get match_data "match_score" (PFloat 0) ;;
  gap_analysis <- get match_data "gap_analysis" PNone ;;
  Ok (Dyn.SkillMatch.mk skill_name cv_has_skill cv_skill_level
        required_level match_score gap_analysis).

Definition convert_to_match_analysis
  (data : pyval) (cv_id job_id : string) (now : datetime)
  : result Dyn.MatchAnalysis.t :=
  v <- get data "skill_matches" (PList []) ;;
  items <- iter v ;;
  skill_matches <- for_try skill_match_of items [] ;;
  overall_score <- get data "overall_score" (PFloat 0) ;;
  skills_score <- get data "skills_score" (PFloat 0) ;;
  experience_score <- get data "experience_score" (PFloat 0) ;;
  education_score <- get data "education_score" (PFloat 0) ;;
  missing_skills <- get data "missing_skills" (PList []) ;;
  matching_skills <- get data "matching_skills" (PList []) ;;
  experience_gap_years <- get data "experience_gap_years" (PFloat 0) ;;
  recommendations <- get data "recommendations" (PList []) ;;
  interview_tips <- get data "interview_tips" (PList []) ;;
  Ok (Dyn.MatchAnalysis.post_init
        (Dyn.MatchAnalysis.mk cv_id job_id
           overall_score skills_score experience_score education_score
           skill_matches missing_skills matching_skills
           experience_gap_years recommendations interview_tips
           (Some now) (Some "gemini-1.5-flash"))).

End Converters.

(** ** The AI service ([src/infrastructure/ai/__init__.py]) *)

Module GeminiAIService.

(** The calls the service makes to its collaborators, in order. *)
Inductive event : Type :=
| Generate (prompt : string)
| JsonLoads (text : string).

(** A computation: the calls it made and how it ended. *)
Definition io (A : Type) : Type := (list event * result A)%type.

Definition ret {A : Type} (a : A) : io A := ([], Ok a).
Definition raise {A : Type} (e : exn) : io A := ([], Raise e).
Definition lift {A : Type} (r : result A) : io A := ([], r).
Definition call {A : Type} (ev : event) (r : result A) : io A := ([ev], r).

Definition io_bind {A B : Type} (m : io A) (f : A -> io B) : io B :=
  match m with
  | (t, Ok a) => let (t', r) := f a in ((t ++ t')%list, r)
  | (t, Raise e) => (t, Raise e)
  end.

(** [try: m except ... as e: h e] *)
Definition catch {A : Type} (m : io A) (h : exn -> io A) : io A :=
  match m with
  | (t, Raise e) => let (t', r) := h e in ((t ++ t')%list, r)
  | (t, Ok a) => (t, Ok a)
  end.

Notation "x <~ m ;; k" := (io_bind m (fun x => k))
  (at level 61, m at next level, right associativity).

Definition _extract_json_from_response (response : string)
  : result string :=
  let start_idx := Py.find response "{"%char in
  let end_idx := Py.rfind response "}"%char in
  if ((start_idx =? -1) || (end_idx =? -1))%Z
  then Raise (AIServiceError "No JSON found in AI response")
  else Ok (Py.slice response start_idx (end_idx + 1)).

Section Service.

(** [self.model.generate_content(prompt).text]: the generative
    collaborator, which answers with a text or raises. *)
Variable model_generate_content : string -> result string.

(** [json.loads]: the decoded value, or the message of the
    [JSONDecodeError] it raises. *)
Variable json_loads : string -> pyval + string.

(** The prompt template of [prompts.py]. *)
Variable create_cv_extraction_prompt : string -> string.

Definition _generate_content (prompt : string) : io string :=
  catch (call (Generate prompt) (model_generate_content prompt))
    (fun e => raise (AIServiceError
                       ("Gemini API failed: " ++ str_exn e))).

Definition loads (text : string) : io pyval :=
  call (JsonLoads text)
    match json_loads text with
    | inl v => Ok v
    | inr msg => Raise (JSONDecodeError msg)
    end.

Definition extract_cv_data (raw_text : string) (now : datetime)
  : io Dyn.CV.t :=
  catch
    (let prompt := create_cv_extraction_prompt raw_text in
     response <~ _generate_content prompt ;;
     let response := Py.strip response in
     if negb (Py.truthy response)
     then raise (AIServiceError "Empty response from AI service")
     else
       response <~ lift (_extract_json_from_response response) ;;
       extracted_data <~ loads response ;;
       cv <~ lift (Converters.convert_to_cv_entity
                     extracted_data raw_text now) ;;
       ret cv)
    (fun e =>
       match e with
       | JSONDecodeError msg =>
           raise (AIServiceError
                    ("Invalid JSON response from AI: " ++ msg))
       | _ =>
           raise (AIServiceError
                    ("Failed to extract CV data: " ++ str_exn e))
       end).

(** The prompt templates of [prompts.py] for a job description and for a
    match; the second one is given the skill names and the years of
    experience of the CV, the required skill names and the minimum years of
    the job. *)
Variable create_job_analysis_prompt : string -> string.
Variable create_matching_prompt :
  list string -> Q -> list string -> Z -> string.

Definition analyze_job_description (description : string) (now : datetime)
  : io Dyn.Job.t :=
  catch
    (let prompt := create_job_analysis_prompt description in
     response <~ _generate_content prompt ;;
     let response := Py.strip response in
     if negb (Py.truthy response)
     then raise (AIServiceError "Empty response from AI service")
     else
       response <~ lift (_extract_json_from_response response) ;;
       job_data <~ loads response ;;
       job <~ lift (Converters.convert_to_job_entity
                      job_data description now) ;;
       ret job)
    (fun e =>
       match e with
       | JSONDecodeError msg =>
           raise (AIServiceError
                    ("Invalid JSON response from AI: " ++ msg))
       | _ =>
           raise (AIServiceError
                    ("Failed to analyze job: " ++ str_exn e))
       end).

(** [x or "unknown"] for an optional text. *)
Definition or_unknown (x : option string) : string :=
  match x with
  | Some (String c t) => String c t
  | _ => "unknown"
  end.

Definition calculate_match_score (cv : CV.t) (job : Job.t) (now : datetime)
  : io Dyn.MatchAnalysis.t :=
  catch
    (let prompt :=
       create_matching_prompt
         (CV.skill_names cv) (CV.total_experience_years cv)
         (Job.all_required_skill_names job)
         (Job.min_experience_years job) in
     response <~ _generate_content prompt ;;
     let response := Py.strip response in
     if negb (Py.truthy response)
     then raise (AIServiceError "Empty response from AI service")
     else
       response <~ lift (_extract_json_from_response response) ;;
       match_data <~ loads response ;;
       let cv_id_str := or_unknown (CV.id cv) in
       let job_id_str := or_unknown (Job.id job) in
       analysis <~ lift (Converters.convert_to_match_analysis
                           match_data cv_id_str job_id_str now) ;;
       ret analysis)
    (fun e =>
       match e with
       | JSONDecodeError msg =>
           raise (AIServiceError
                    ("Invalid JSON response from AI: " ++ msg))
       | _ =>
           raise (AIServiceError
                    ("Failed to calculate match: " ++ str_exn e))
       end).

End Service.

End GeminiAIService.

(** ** Settings ([src/config.py]) *)

Module Settings.
Record t : Type := mk {
  app_name : string;
  app_version : string;
  debug : bool;
  host : string;
  port : Z;
  database_url : string;
  google_api_key : string;
  openai_api_key : string;
  huggingface_api_key : string;
  max_file_size_mb : Z;
  upload_dir : string;
  allowed_file_types : list string;
  secret_key : string;
  access_token_expire_minutes : Z;
  log_level : string
}.

(** The values of the class, before the environment overrides any. *)
Definition defaults : t :=
  mk "CV Analyzer" "1.0.0" false "0.0.0.0" 8000
     "sqlite:///./cv_analyzer.db" "" "" "" 10 "./uploads" ["pdf"]
     "your-secret-key-change-this-in-production" 30 "INFO".

Definition max_file_size_bytes (self : t) : Z :=
  (max_file_size_mb self * 1024 * 1024)%Z.

(** [bool(self.google_api_key or self.openai_api_key)] *)
Definition is_ai_configured (self : t) : bool :=
  Py.truthy (if Py.truthy (google_api_key self)
             then google_api_key self else openai_api_key self).
End Settings.

(** ** Creation of the AI service ([src/infrastructure/ai/__init__.py]) *)

Module AIServiceFactory.

(** A [GeminiAIService] object: the key it configured the client with and
    the name of the model it holds. *)
Record service : Type := mk_service {
  api_key : string;
  model_name : string
}.

(** [GeminiAIService.__init__], reading the global [settings]. *)
Definition init (settings : Settings.t) : result service :=
  if negb (Py.truthy (Settings.google_api_key settings))
  then Raise (ValueError "Google API key not configured")
  else Ok (mk_service (Settings.google_api_key settings) "gemini-1.5-flash").

Definition create_ai_service (settings : Settings.t) : result service :=
  if Py.truthy (Settings.google_api_key settings)
  then init settings
  else Raise (ValueError "Google Gemini API key not configured").

End AIServiceFactory.

(** ** PDF processing ([src/infrastructure/pdf/__init__.py])

    A [bytes] value is the [string] of its bytes.  The two PDF libraries are
    parameters: for a file content each gives the pages of the document, or
    the exception it raises while opening it; a page is what its
    [extract_text()] gives, a text, [None] or an exception. *)

Module PDFProcessor.

Definition page : Type := result (option string).

Inductive outcome : Type :=
| Text (text : string)
| PDFProcessingError (msg : string).

Definition newline : string := String (ascii_of_nat 10) EmptyString.

(** The loop over the pages of both extraction methods: a page text that
    is not empty is appended to [text_parts]. *)
Fixpoint collect (pages : list page) (text_parts : list string)
  : result (list string) :=
  match pages with
  | [] => Ok text_parts
  | p :: rest =>
      page_text <- p ;;
      match page_text with
      | Some (String c t) => collect rest (text_parts ++ [String c t])%list
      | _ => collect rest text_parts
      end
  end.

(** The body shared by [_extract_with_pdfplumber] and
    [_extract_with_pypdf2]: the texts joined by a newline, the empty text
    on any exception. *)
Definition extract_with (pages : result (list page)) : string :=
  match (ps <- pages ;;
         text_parts <- collect ps [] ;;
         Ok (Py.join newline text_parts)) with
  | Ok text => text
  | Raise _ => ""
  end.

Section Libraries.

Variable pdfplumber_pages : string -> result (list page).
Variable pypdf2_pages : string -> result (list page).

Definition _extract_with_pdfplumber (file_content : string) : string :=
  extract_with (pdfplumber_pages file_content).

Definition _extract_with_pypdf2 (file_content : string) : string :=
  extract_with (pypdf2_pages file_content).

(** [text and text.strip()] as a condition. *)
Definition meaningful (text : string) : bool :=
  Py.truthy text && Py.truthy (Py.strip text).

Definition extract_text_from_pdf (file_content : string) : outcome :=
  match
    (let text := _extract_with_pdfplumber file_content in
     if meaningful text then Ok text
     else
       let text := _extract_with_pypdf2 file_content in
       if meaningful text then Ok text
       else Ok "")
  with
  | Ok text => Text text
  | Raise e => PDFProcessingError ("Failed to extract text: " ++ str_exn e)
  end.

Definition validate_pdf_file (file_content : string) : bool :=
  match
    (if negb (Py.startswith file_content "%PDF-") then Ok false
     else
       pages <- pypdf2_pages file_content ;;
       let num_pages := List.length pages in
       Ok (0 <? num_pages)%nat)
  with
  | Ok b => b
  | Raise _ => false
  end.

End Libraries.

End PDFProcessor.

(** ** The upload route ([src/presentation/api/routes/cv.py]) *)

Module CVRoutes.

Module HTTPException.
Record t : Type := mk {
  status_code : Z;
  detail : string
}.
End HTTPException.

(** The uploaded file: its name and what [await file.read()] gives. *)
Module UploadFile.
Record t : Type := mk {
  filename : option string;
  read : result string
}.
End UploadFile.

Module CVUploadResponse.
Record t : Type := mk {
  id : string;
  filename : string;
  message : string;
  extracted_data : pyval
}.
End CVUploadResponse.

(** What can be raised inside the handler. *)
Inductive raised : Type :=
| Http (e : HTTPException.t)
| PdfError (msg : string)
| Other (e : exn).

(** What the handler does to the outside, in order. *)
Inductive event : Type :=
| ExtractCV (raw_text : string)
| MakeDirs (dir : string)
| WriteFile (path content : string).

Definition rio (A : Type) : Type := (list event * (A + raised))%type.

Definition ret {A : Type} (a : A) : rio A := ([], inl a).
Definition fail {A : Type} (r : raised) : rio A := ([], inr r).
Definition http_error {A : Type} (status : Z) (detail : string) : rio A :=
  fail (Http (HTTPException.mk status detail)).

(** A call to the outside that returns or raises. *)
Definition call {A : Type} (ev : event) (r : result A) : rio A :=
  ([ev], match r with Ok a => inl a | Raise e => inr (Other e) end).

Definition lift {A : Type} (r : result A) : rio A :=
  ([], match r with Ok a => inl a | Raise e => inr (Other e) end).

Definition rbind {A B : Type} (m : rio A) (f : A -> rio B) : rio B :=
  match m with
  | (t, inl a) => let (t', r) := f a in ((t ++ t')%list, r)
  | (t, inr e) => (t, inr e)
  end.

Notation "x <<- m ;; k" := (rbind m (fun x => k))
  (at level 61, m at next level, right associativity).

Section Upload.

Variable settings : Settings.t.
Variable pdfplumber_pages : string -> result (list PDFProcessor.page).
Variable pypdf2_pages : string -> result (list PDFProcessor.page).

(** [ai_service.extract_cv_data], the injected service. *)
Variable extract_cv_data : string -> result Dyn.CV.t.

(** [str(uuid.uuid4())] *)
Variable new_uuid : string.

(** The file system: [os.path.exists], [os.makedirs] and the writing of a
    file opened with ["wb"]. *)
Variable path_exists : string -> bool.
Variable makedirs : string -> result unit.
Variable write_file : string -> string -> result unit.

(** The dictionary [extracted_data] of the response. *)
Definition extracted_data (cv : Dyn.CV.t) : result pyval :=
  let skills :=
    map (fun s =>
           PDict [("name", Dyn.Skill.name s);
                  ("level", PStr (SkillLevelEnum.value (Dyn.Skill.level s)))])
        (Dyn.CV.skills cv) in
  experience_years <- Dyn.CV.total_experience_years cv ;;
  let education :=
    map (fun e =>
           PDict [("degree", Dyn.Education.degree e);
                  ("institution", Dyn.Education.institution e)])
        (Dyn.CV.education cv) in
  Ok (PDict [("name", Dyn.CV.name cv);
             ("email", Dyn.CV.email cv);
             ("skills", PList skills);
             ("experience_years", PFloat experience_years);
             ("education", PList education);
             ("certifications", Dyn.CV.certifications cv)]).

(** The body of the [try] of [upload_cv]. *)
Definition upload_cv_body (file : UploadFile.t)
  : rio CVUploadResponse.t :=
  match UploadFile.filename file with
  | Some (String c t) =>
      let filename := String c t in
      if negb (Py.endswith (Py.lower filename) ".pdf")
      then http_error 400 "Only PDF files are supported"
      else
        file_content <<- lift (UploadFile.read file) ;;
        if (Settings.max_file_size_bytes settings
            <? Z.of_nat (String.length file_content))%Z
        then http_error 413
               ("File too large. Maximum size: "
                  ++ Py.str_int (Settings.max_file_size_mb settings) ++ "MB")
        else if negb (PDFProcessor.validate_pdf_file pypdf2_pages
                        file_content)
        then http_error 400 "Invalid PDF file"
        else
          match PDFProcessor.extract_text_from_pdf
                  pdfplumber_pages pypdf2_pages file_content with
          | PDFProcessor.PDFProcessingError msg => fail (PdfError msg)
          | PDFProcessor.Text raw_text =>
              if negb (Py.truthy (Py.strip raw_text))
              then http_error 400 "Could not extract text from PDF"
              else
                cv <<- call (ExtractCV raw_text) (extract_cv_data raw_text) ;;
                let cv := Dyn.CV.set_id_filename cv new_uuid filename in
                let upload_dir := Settings.upload_dir settings in
                _ <<- (if negb (path_exists upload_dir)
                       then call (MakeDirs upload_dir) (makedirs upload_dir)
                       else ret tt) ;;
                let file_path :=
                  Py.path_join upload_dir (new_uuid ++ "_" ++ filename) in
                _ <<- call (WriteFile file_path file_content)
                        (write_file file_path file_content) ;;
                data <<- lift (extracted_data cv) ;;
                ret (CVUploadResponse.mk new_uuid filename
                       "CV uploaded and analyzed successfully" data)
          end
  | _ => http_error 400 "Only PDF files are supported"
  end.

(** [upload_cv]: the body under its three handlers.  [HTTPException] is an
    [Exception] and neither a [PDFProcessingError] nor an
    [AIServiceError]: the last handler catches it. *)
Definition upload_cv (file : UploadFile.t)
  : list event * (CVUploadResponse.t + HTTPException.t) :=
  let (trace, r) := upload_cv_body file in
  (trace,
   match r with
   | inl response => inl response
   | inr (PdfError msg) => inr (HTTPException.mk 400 msg)
   | inr (Other (AIServiceError msg)) => inr (HTTPException.mk 503 msg)
   | inr _ => inr (HTTPException.mk 500 "Internal server error")
   end).

End Upload.

End CVRoutes.

(** ** The score arithmetic on binary64 numbers

    The two score updates of [_apply_business_rules] with the operations of
    IEEE 754 binary64, as CPython performs them; used to check that the
    worked example of the specification is exact in floating point too. *)

Module Binary64.

#[local] Set Warnings "-inexact-float".

Definition max (a b : float) : float := if (a <? b)%float then b else a.
Definition min (a b : float) : float := if (b <? a)%float then b else a.

(** Rule 1 with [missing > 0] absent mandatory skills. *)
Definition penalised (score missing : float) : float :=
  let penalty := (missing * 0.1)%float in
  max 0 (score - penalty * 100)%float.

(** Rule 2 when the experience reaches the minimum. *)
Definition boosted (score cv_years min_years : float) : float :=
  let exp_diff := (cv_years - min_years)%float in
  let boost := min 0.1 (exp_diff * 0.02)%float in
  min 100 (score + boost * 100)%float.

End Binary64.

(** ** Notions used to state the properties *)

(** The items of an optional list, none for [None]. *)
Definition items {A : Type} (o : option (list A)) : list A :=
  match o with Some l => l | None => [] end.

(** A list-valued field built from a constructor argument: the argument's
    list, or the empty list when the argument was left out or was [None]. *)
Definition built_from {A : Type} (arg field : option (list A)) : Prop :=
  field = Some (items arg).

(** A blank text: nothing but white space. *)
Fixpoint blank (s : string) : bool :=
  match s with
  | EmptyString => true
  | String c t => Py.is_space c && blank t
  end.

(** The requirements of a job that are mandatory and whose skill name is not
    among the names of the skills of the CV. *)
Definition absent_mandatory (cv : CV.t) (job : Job.t)
  : list JobRequirement.t :=
  filter (fun r =>
            JobRequirement.is_mandatory r
            && negb (existsb (fun s => String.eqb (JobRequirement.skill r)
                                                  (Skill.name s))
                       (items (CV.skills cv))))
         (items (Job.required_skills job)).

(** Rule 1 as the specification words it: 10 points per missing mandatory
    skill, with a floor of 0. *)
Definition spec_penalty (score : Q) (missing : nat) : Q :=
  Qmax 0 (score - 10 * inject_Z (Z.of_nat missing)).

(** Rule 2 as the specification words it: when the experience reaches the
    minimum, [min(10, 2 x surplus)] points more, with a ceiling of 100. *)
Definition spec_boost (score cv_years min_years : Q) : Q :=
  if Qle_bool min_years cv_years
  then Qmin 100 (score + Qmin 10 (2 * (cv_years - min_years)))
  else score.

(** The required education entries that no degree of the CV matches when
    both are compared in lower case. *)
Definition uncovered_education (cv : CV.t) (job : Job.t) : list string :=
  let degrees := map Education.degree (items (CV.education cv)) in
  filter (fun r =>
            negb (existsb (fun d => String.eqb (Py.lower r) (Py.lower d))
                    degrees))
         (items (Job.required_education job)).

(** The level a text names, compared in lower case with the values of the
    four members; [None] when it names none of them. *)
Definition named_level (s : string) : option SkillLevel :=
  List.find (fun l => String.eqb (SkillLevelEnum.value l) (Py.lower s))
    SkillLevelEnum.members.

(** Does the character occur in the text? *)
Fixpoint occurs (c : ascii) (s : string) : bool :=
  match s with
  | EmptyString => false
  | String x t => Ascii.eqb x c || occurs c t
  end.

(** The text from its first [c] on; empty when [c] does not occur. *)
Fixpoint from_first (c : ascii) (s : string) : string :=
  match s with
  | EmptyString => EmptyString
  | String x t => if Ascii.eqb x c then s else from_first c t
  end.

(** The text up to its last [c]; empty when [c] does not occur. *)
Fixpoint upto_last (c : ascii) (s : string) : string :=
  match s with
  | EmptyString => EmptyString
  | String x t =>
      match upto_last c t with
      | EmptyString =>
          if Ascii.eqb x c then String x EmptyString else EmptyString
      | r => String x r
      end
  end.

(** The part of a response from its first opening brace to its last closing
    brace; empty when the last closing brace comes before the first opening
    one. *)
Definition object_text (response : string) : string :=
  upto_last "}" (from_first "{" response).

(** ** Sample entities and payloads used by the examples *)

Definition cv_of (filename raw_text : string)
  (skills : list Skill.t) (months : list Z) : CV.t :=
  CV.init
    (CV.mk None filename raw_text None None None None
       (Some skills) None
       (Some (map (fun m => Experience.mk "" "" m "" [] None None) months))
       None None None None).

Definition cv_with_degrees (degrees : list string) : CV.t :=
  CV.init
    (CV.mk None "cv.pdf" "text" None None None None None
       (Some (map (fun d => Education.mk d "" "" None None) degrees))
       None None None None None).

Definition job_of (required : list JobRequirement.t) (min_years : Z)
  (education : list string) : Job.t :=
  Job.init
    (Job.mk None "title" "" "description" (Some required) None min_years
       (Some education) None None None None None).

Definition analysis_with (missing : list string) (gap : Q)
  (recommendations : list string) : MatchAnalysis.t :=
  MatchAnalysis.init
    (MatchAnalysis.mk "cv" "job" 50 0 0 0 None (Some missing) None gap
       (Some recommendations) None None None).

Definition analysis_of (score : Q) : MatchAnalysis.t :=
  MatchAnalysis.set_overall_score
    (MatchAnalysis.init (MatchAnalysis.defaults "cv" "job")) score.

Definition match_with_score (score : Q) : Match.t :=
  Match.mk None "cv" "job" COMPLETED (Some (analysis_of score))
    None None None None.

(** A stand-in for the formatting of the experience gap. *)
Definition no_format (_ : Q) : string := "".

(** Payloads as [json.loads] returns them. *)

Definition skill_entry (name : string) (level : pyval) : pyval :=
  PDict [("name", PStr name); ("level", level)].

Definition requirement_entry (skill : string) (level : pyval) : pyval :=
  PDict [("skill", PStr skill); ("required_level", level)].

(** [{"skills": [{"name": "Python", "level": "ninja"},
                 {"name": "Go", "level": "EXPERT"}, {"name": "SQL"}]}] *)
Definition payload_ninja : pyval :=
  PDict [("skills",
          PList [skill_entry "Python" (PStr "ninja");
                 skill_entry "Go" (PStr "EXPERT");
                 PDict [("name", PStr "SQL")]])].

(** [{"skills": [{"name": "Python", "level": null},
                 {"name": "Go", "level": "expert"}]}] *)
Definition payload_null_level : pyval :=
  PDict [("skills",
          PList [skill_entry "Python" PNone;
                 skill_entry "Go" (PStr "expert")])].

(** [{"required_skills": [{"skill": "Python", "required_level": null}]}] *)
Definition payload_null_required_level : pyval :=
  PDict [("required_skills", PList [requirement_entry "Python" PNone])].

(** [{"skills": ["Python", {"name": "Go", "level": "expert"}]}] *)
Definition payload_bad_skill : pyval :=
  PDict [("skills",
          PList [PStr "Python"; skill_entry "Go" (PStr "expert")])].

(** [{"skills": [{"name": "Go", "level": "expert"}],
      "education": ["BSc Computer Science"]}] *)
Definition payload_bad_education : pyval :=
  PDict [("skills", PList [skill_entry "Go" (PStr "expert")]);
         ("education", PList [PStr "BSc Computer Science"])].

(** [{"skills": [{"name": "Go", "level": "expert"}],
      "experience": [null, {"position": "Developer"}]}] *)
Definition payload_bad_experience : pyval :=
  PDict [("skills", PList [skill_entry "Go" (PStr "expert")]);
         ("experience",
          PList [PNone; PDict [("position", PStr "Developer")]])].

(** [{"skill_matches": [{"skill_name": "Python",
        "cv_skill_level": "ninja", "required_level": "Advanced"}]}] *)
Definition payload_match : pyval :=
  PDict [("skill_matches",
          PList [PDict [("skill_name", PStr "Python");
                        ("cv_skill_level", PStr "ninja");
                        ("required_level", PStr "Advanced")]])].


(** ** Notions used to state further properties *)

(** The sum of a list of integers, from the right. *)
Definition total (l : list Z) : Z := fold_right Z.add 0%Z l.

(** The rank of a recommendation label, from the lowest to the highest. *)
Definition label_rank (label : string) : nat :=
  if String.eqb label "Highly Recommended" then 3
  else if String.eqb label "Recommended" then 2
  else if String.eqb label "Consider with Caution" then 1
  else 0.

(** Can a [for] loop run over the value? *)
Definition iterable (v : pyval) : bool :=
  match v with
  | PList _ | PStr _ | PDict _ => true
  | _ => false
  end.

Definition is_object (v : pyval) : bool :=
  match v with
  | PDict _ => true
  | _ => false
  end.

(** An object whose entry under [key] is a text, or is absent. *)
Definition object_with_text (key : string) (v : pyval) : bool :=
  match v with
  | PDict d =>
      match PyVal.dict_get d key (PStr "beginner") with
      | PStr _ => true
      | _ => false
      end
  | _ => false
  end.

(** The level such an object asks for: the member its text names without
    regard to case, [BEGINNER] when the text names none or is absent. *)
Definition entry_level (key : string) (v : pyval) : SkillLevel :=
  match v with
  | PDict d =>
      match PyVal.dict_get d key (PStr "beginner") with
      | PStr s => match named_level s with Some l => l | None => BEGINNER end
      | _ => BEGINNER
      end
  | _ => BEGINNER
  end.

(** The value an object has under [key], [default] for a missing key. *)
Definition entry_value (key : string) (default : pyval) (v : pyval) : pyval :=
  match v with
  | PDict d => PyVal.dict_get d key default
  | _ => default
  end.

(** The exception is an [AttributeError]. *)
Definition attribute_error (e : exn) : Prop :=
  exists msg, e = AttributeError msg.

(** What a run of an operation of the AI service looks like: the model is
    called once, with [prompt], the parser at most once and after it, and a
    failure is an [AIServiceError]. *)
Definition well_behaved {A : Type} (prompt : string)
  (run : GeminiAIService.io A) : Prop :=
  (fst run = [GeminiAIService.Generate prompt]
   \/ exists text,
        fst run = [GeminiAIService.Generate prompt;
                   GeminiAIService.JsonLoads text])
  /\ forall e, snd run = Raise e -> exists msg, e = AIServiceError msg.

(** Stand-ins for the collaborators of the AI service in the examples. *)
Definition model_says (response : string) (_ : string) : result string :=
  Ok response.
Definition model_fails (msg : string) (_ : string) : result string :=
  Raise (ValueError msg).
Definition loads_gives (v : pyval) (_ : string) : pyval + string := inl v.
Definition loads_fails (msg : string) (_ : string) : pyval + string :=
  inr msg.
Definition prompt_of (text : string) : string := text.
Definition match_prompt_of (_ : list string) (_ : Q) (_ : list string)
  (_ : Z) : string := "match".

(** A page whose text could be read, and the text it gives. *)
Definition readable (p : PDFProcessor.page) : bool :=
  match p with
  | Ok _ => true
  | Raise _ => false
  end.

Definition page_text (p : PDFProcessor.page) : string :=
  match p with
  | Ok (Some text) => text
  | _ => ""
  end.

(** A text with something else than white space in it. *)
Definition non_blank (text : string) : bool := Py.truthy (Py.strip text).

(** The text [extract_text_from_pdf] settles on, from what the two
    extraction methods give. *)
Definition chosen_text (plumber_text pypdf2_text : string) : string :=
  if non_blank plumber_text then plumber_text
  else if non_blank pypdf2_text then pypdf2_text
  else "".

(** The value of a number in the course of a [sum]. *)
Definition pynum_value (n : Dyn.CV.pynum) : Q :=
  match n with
  | Dyn.CV.NInt z => inject_Z z
  | Dyn.CV.NFloat q => q
  end.

(** A payload value that [+] accepts after a number, and its value. *)
Definition is_number (v : pyval) : bool :=
  match v with
  | PInt _ | PFloat _ | PBool _ => true
  | _ => false
  end.

Definition number_value (v : pyval) : Q :=
  match v with
  | PInt z => inject_Z z
  | PFloat q => q
  | PBool true => 1
  | _ => 0
  end.

Definition durations (cv : Dyn.CV.t) : list pyval :=
  map Dyn.Experience.duration_months (Dyn.CV.experience cv).

Definition sum_values (l : list pyval) : Q :=
  fold_right (fun v acc => number_value v + acc) 0 l.

(** The file name of an upload is accepted: it is not empty and ends,
    without regard to case, with ".pdf". *)
Definition pdf_name (file : CVRoutes.UploadFile.t) : bool :=
  match CVRoutes.UploadFile.filename file with
  | Some name => Py.truthy name && Py.endswith (Py.lower name) ".pdf"
  | None => false
  end.

(** The response that reports an unexpected error. *)
Definition internal_server_error : CVRoutes.HTTPException.t :=
  CVRoutes.HTTPException.mk 500 "Internal server error".

(** The name of the uploaded file, empty when it has none. *)
Definition name_of (file : CVRoutes.UploadFile.t) : string :=
  match CVRoutes.UploadFile.filename file with
  | Some name => name
  | None => ""
  end.

(** Stand-ins for the collaborators of the upload route in the examples. *)
Definition one_page (text : string) (_ : string)
  : result (list PDFProcessor.page) := Ok [Ok (Some text)].
Definition unreadable (_ : string) : result (list PDFProcessor.page) :=
  Raise (ValueError "not a PDF").
Definition plain_cv (now : datetime) (raw_text : string)
  : result Dyn.CV.t :=
  Converters.convert_to_cv_entity (PDict []) raw_text now.
Definition no_directory (_ : string) : bool := false.
Definition fs_ok (_ : string) : result unit := Ok tt.
Definition write_ok (_ _ : string) : result unit := Ok tt.
Definition upload_of (name content : string) : CVRoutes.UploadFile.t :=
  CVRoutes.UploadFile.mk (Some name) (Ok content).
(** * Properties *)

(** ** Sanity checks of the builtins *)

Example strip_example :
  Py.strip "  a b  " = "a b" /\ Py.strip "   " = "" /\ Py.strip "a" = "a".
Proof. repeat split; reflexivity. Qed.

Example lower_example : Py.lower "ExPeRT" = "expert".
Proof. reflexivity. Qed.

Example find_example :
  Py.find "ab{c}d}" "{"%char = 2%Z /\ Py.rfind "ab{c}d}" "}"%char = 6%Z
  /\ Py.slice "ab{c}d}x" 2 7 = "{c}d}" /\ Py.slice "} {" 2 1 = "".
Proof. repeat split; reflexivity. Qed.

(** ** Recommendation level of a match *)

Lemma Qle_bool_false (x y : Q) : Qle_bool x y = false -> y < x.
Proof.
  intros H. apply Qnot_le_lt. intros Hle.
  apply Qle_bool_iff in Hle. congruence.
Qed.

(** C7: for a match whose analysis is present, the recommendation level is
    the step function of the overall score with boundaries 40, 60 and 80. *)
Theorem recommendation_level_steps (m : Match.t) (a : MatchAnalysis.t) :
  Match.analysis m = Some a ->
  let score := MatchAnalysis.overall_score a in
  (80 <= score -> Match.recommendation_level m = "Highly Recommended")
  /\ (60 <= score -> score < 80 ->
      Match.recommendation_level m = "Recommended")
  /\ (40 <= score -> score < 60 ->
      Match.recommendation_level m = "Consider with Caution")
  /\ (score < 40 -> Match.recommendation_level m = "Not Recommended").
Proof.
  intros Ha score. unfold Match.recommendation_level. rewrite Ha.
  fold score.
  destruct (Qle_bool 80 score) eqn:E80;
    [apply Qle_bool_iff in E80 | apply Qle_bool_false in E80];
  (destruct (Qle_bool 60 score) eqn:E60;
    [apply Qle_bool_iff in E60 | apply Qle_bool_false in E60]);
  (destruct (Qle_bool 40 score) eqn:E40;
    [apply Qle_bool_iff in E40 | apply Qle_bool_false in E40]);
  repeat split; intros; try reflexivity; exfalso; lra.
Qed.

Lemma recommendation_level_steps_witness :
  Match.recommendation_level (match_with_score 80) = "Highly Recommended"
  /\ Match.recommendation_level (match_with_score (799 # 10)) = "Recommended".
Proof.
  split.
  - apply (recommendation_level_steps (match_with_score 80) _ eq_refl).
    discriminate.
  - apply (recommendation_level_steps (match_with_score (799 # 10)) _ eq_refl).
    + discriminate.
    + reflexivity.
Defined.

(** C10: a match without analysis has recommendation level "Unknown". *)
Theorem recommendation_level_unknown (m : Match.t) :
  Match.analysis m = None -> Match.recommendation_level m = "Unknown".
Proof.
  intros H. unfold Match.recommendation_level. now rewrite H.
Qed.

Lemma recommendation_level_unknown_witness :
  Match.recommendation_level
    (Match.mk None "" "" PENDING None None None None None) = "Unknown".
Proof.
  apply recommendation_level_unknown. reflexivity.
Defined.

(** ** Construction of entities *)

(** C9: after construction every list-valued field of a CV, a Job and a
    MatchAnalysis holds a list: the one passed, or the empty list when the
    argument was omitted or [None]. *)
Theorem init_list_fields (c : CV.t) (j : Job.t) (a : MatchAnalysis.t) :
  (built_from (CV.skills c) (CV.skills (CV.init c))
   /\ built_from (CV.education c) (CV.education (CV.init c))
   /\ built_from (CV.experience c) (CV.experience (CV.init c))
   /\ built_from (CV.certifications c) (CV.certifications (CV.init c))
   /\ built_from (CV.languages c) (CV.languages (CV.init c)))
  /\ (built_from (Job.required_skills j) (Job.required_skills (Job.init j))
      /\ built_from (Job.preferred_skills j)
           (Job.preferred_skills (Job.init j))
      /\ built_from (Job.required_education j)
           (Job.required_education (Job.init j))
      /\ built_from (Job.required_certifications j)
           (Job.required_certifications (Job.init j)))
  /\ (built_from (MatchAnalysis.skill_matches a)
        (MatchAnalysis.skill_matches (MatchAnalysis.init a))
      /\ built_from (MatchAnalysis.missing_skills a)
           (MatchAnalysis.missing_skills (MatchAnalysis.init a))
      /\ built_from (MatchAnalysis.matching_skills a)
           (MatchAnalysis.matching_skills (MatchAnalysis.init a))
      /\ built_from (MatchAnalysis.recommendations a)
           (MatchAnalysis.recommendations (MatchAnalysis.init a))
      /\ built_from (MatchAnalysis.interview_tips a)
           (MatchAnalysis.interview_tips (MatchAnalysis.init a))).
Proof.
  unfold built_from, items.
  destruct c as [? ? ? ? ? ? ? sk ed ex ce la ? ?].
  destruct j as [? ? ? ? rs ps ? re rc ? ? ? ?].
  destruct a as [? ? ? ? ? ? sm ms mt ? rc' it ? ?].
  cbn.
  destruct sk, ed, ex, ce, la, rs, ps, re, rc, sm, ms, mt, rc', it;
    repeat split.
Qed.

(** With every list argument left out, every list field is empty. *)
Example init_defaults :
  CV.skills (CV.init CV.defaults) = Some []
  /\ CV.languages (CV.init CV.defaults) = Some []
  /\ Job.required_skills (Job.init Job.defaults) = Some []
  /\ MatchAnalysis.recommendations
       (MatchAnalysis.init (MatchAnalysis.defaults "c" "j")) = Some [].
Proof. repeat split. Qed.

(** ** Validation *)

Lemma lstrip_empty (s : string) : Py.lstrip s = "" <-> blank s = true.
Proof.
  induction s as [|c t IH]; cbn.
  - tauto.
  - destruct (Py.is_space c); cbn.
    + exact IH.
    + split; discriminate.
Qed.

Lemma rstrip_empty (s : string) : Py.rstrip s = "" <-> blank s = true.
Proof.
  induction s as [|c t IH]; cbn.
  - tauto.
  - destruct (Py.rstrip t) eqn:Er.
    + destruct (Py.is_space c); cbn.
      * split; intros _; [now apply IH | reflexivity].
      * split; discriminate.
    + split; [discriminate|].
      intros H. apply andb_true_iff in H as [_ H].
      apply IH in H. discriminate.
Qed.

Lemma blank_lstrip (s : string) : blank (Py.lstrip s) = blank s.
Proof.
  induction s as [|c t IH]; cbn; [reflexivity|].
  destruct (Py.is_space c) eqn:E; cbn; [exact IH | now rewrite E].
Qed.

(** [s.strip()] is empty exactly when [s] is blank. *)
Lemma strip_truthy (s : string) : Py.truthy (Py.strip s) = negb (blank s).
Proof.
  unfold Py.strip.
  destruct (blank s) eqn:B; cbn.
  - rewrite <- blank_lstrip in B. apply rstrip_empty in B. now rewrite B.
  - destruct (Py.rstrip (Py.lstrip s)) eqn:E; [|reflexivity].
    apply rstrip_empty in E. rewrite blank_lstrip in E. congruence.
Qed.

Lemma blank_id_blank (x : string) : ValidationService.blank_id x = blank x.
Proof.
  unfold ValidationService.blank_id. rewrite strip_truthy, negb_involutive.
  destruct x; reflexivity.
Qed.

(** C8 (amended): each validation is a total function that returns the list
    of all the violations that apply, in the order of the checks; a CV with
    blank text and empty filename has exactly two, and a valid entity has
    none.  The filename is checked for emptiness, the other texts for
    blankness. *)
Theorem validation_accumulates :
  (forall cv,
      ValidationService.validate_cv cv =
      ((if blank (CV.raw_text cv)
        then ["CV must contain text content"] else [])
       ++ (if String.eqb (CV.filename cv) ""
           then ["CV must have a filename"] else []))%list)
  /\ (forall job,
         ValidationService.validate_job job =
         ((if blank (Job.title job) then ["Job must have a title"] else [])
          ++ (if blank (Job.description job)
              then ["Job must have a description"] else [])
          ++ (if (Job.min_experience_years job <? 0)%Z
              then ["Minimum experience years cannot be negative"]
              else []))%list)
  /\ (forall cv_id job_id,
         ValidationService.validate_match_request cv_id job_id =
         ((if blank cv_id then ["CV ID is required"] else [])
          ++ (if blank job_id then ["Job ID is required"] else []))%list)
  /\ (forall cv,
         blank (CV.raw_text cv) = true -> CV.filename cv = "" ->
         ValidationService.validate_cv cv =
         ["CV must contain text content"; "CV must have a filename"])
  /\ (forall cv,
         blank (CV.raw_text cv) = false -> CV.filename cv <> "" ->
         ValidationService.validate_cv cv = [])
  /\ (forall job,
         blank (Job.title job) = false ->
         blank (Job.description job) = false ->
         (0 <= Job.min_experience_years job)%Z ->
         ValidationService.validate_job job = [])
  /\ (forall cv_id job_id,
         blank cv_id = false -> blank job_id = false ->
         ValidationService.validate_match_request cv_id job_id = []).
Proof.
  assert (Hcv : forall cv,
      ValidationService.validate_cv cv =
      ((if blank (CV.raw_text cv)
        then ["CV must contain text content"] else [])
       ++ (if String.eqb (CV.filename cv) ""
           then ["CV must have a filename"] else []))%list).
  { intros cv. unfold ValidationService.validate_cv.
    rewrite strip_truthy, negb_involutive.
    destruct (blank (CV.raw_text cv)), (CV.filename cv); reflexivity. }
  assert (Hjob : forall job,
         ValidationService.validate_job job =
         ((if blank (Job.title job) then ["Job must have a title"] else [])
          ++ (if blank (Job.description job)
              then ["Job must have a description"] else [])
          ++ (if (Job.min_experience_years job <? 0)%Z
              then ["Minimum experience years cannot be negative"]
              else []))%list).
  { intros job. unfold ValidationService.validate_job.
    rewrite !strip_truthy, !negb_involutive.
    destruct (blank (Job.title job)), (blank (Job.description job)),
      (Job.min_experience_years job <? 0)%Z; reflexivity. }
  assert (Hreq : forall cv_id job_id,
         ValidationService.validate_match_request cv_id job_id =
         ((if blank cv_id then ["CV ID is required"] else [])
          ++ (if blank job_id then ["Job ID is required"] else []))%list).
  { intros cv_id job_id. unfold ValidationService.validate_match_request.
    rewrite !blank_id_blank.
    destruct (blank cv_id), (blank job_id); reflexivity. }
  repeat split; auto.
  - intros cv Hb Hf. rewrite Hcv, Hb, Hf. reflexivity.
  - intros cv Hb Hf. rewrite Hcv, Hb.
    destruct (String.eqb_spec (CV.filename cv) ""); [contradiction|reflexivity].
  - intros job Ht Hd Hm. rewrite Hjob, Ht, Hd.
    destruct (Z.ltb_spec (Job.min_experience_years job) 0); [lia|reflexivity].
  - intros cv_id job_id Hc Hj. rewrite Hreq, Hc, Hj. reflexivity.
Qed.

Lemma validation_accumulates_witness :
  ValidationService.validate_cv (cv_of "" "   " [] []) =
  ["CV must contain text content"; "CV must have a filename"]
  /\ ValidationService.validate_cv (cv_of "cv.pdf" "Ada Lovelace" [] []) = []
  /\ ValidationService.validate_job (job_of [] 3 []) = []
  /\ ValidationService.validate_match_request "cv-1" "job-1" = [].
Proof.
  destruct validation_accumulates as (_ & _ & _ & Hboth & Hcv & Hjob & Hreq).
  split; [apply Hboth; reflexivity|].
  split; [apply Hcv; [reflexivity | discriminate]|].
  split; [apply Hjob; [reflexivity | reflexivity | discriminate]|].
  apply Hreq; reflexivity.
Defined.

(** C8 as stated fails for a filename of white space: the filename is
    tested with [not cv.filename], which only the empty text satisfies, so a
    CV with blank text and blank filename has one violation, not two. *)
Lemma validate_cv_blank_filename_counterexample :
  let cv := cv_of " " "   " [] [] in
  blank (CV.raw_text cv) = true
  /\ blank (CV.filename cv) = true
  /\ ValidationService.validate_cv cv = ["CV must contain text content"]
  /\ List.length (ValidationService.validate_cv cv) <> 2%nat.
Proof. repeat split. discriminate. Qed.

Example validate_job_all :
  ValidationService.validate_job
    (Job.init (Job.mk None " " "" "" None None (-1) None None None None
                 None None)) =
  ["Job must have a title"; "Job must have a description";
   "Minimum experience years cannot be negative"].
Proof. reflexivity. Qed.

(** ** Business rules: the overall score *)

Lemma py_max_spec (a b : Q) :
  (b <= a /\ Py.max a b = a) \/ (a < b /\ Py.max a b = b).
Proof.
  unfold Py.max. destruct (Qle_bool b a) eqn:E.
  - left. split; [now apply Qle_bool_iff | reflexivity].
  - right. split; [now apply Qle_bool_false | reflexivity].
Qed.

Lemma py_min_spec (a b : Q) :
  (a <= b /\ Py.min a b = a) \/ (b < a /\ Py.min a b = b).
Proof.
  unfold Py.min. destruct (Qle_bool a b) eqn:E.
  - left. split; [now apply Qle_bool_iff | reflexivity].
  - right. split; [now apply Qle_bool_false | reflexivity].
Qed.

Lemma str_in_existsb {A : Type} (f : A -> string) (x : string) (l : list A) :
  Py.str_in x (map f l) = existsb (fun a => String.eqb x (f a)) l.
Proof.
  unfold Py.str_in. induction l as [|a l IH]; cbn; [reflexivity|].
  now rewrite IH.
Qed.

Lemma skill_names_map (cv : CV.t) :
  CV.skill_names cv =
  map Skill.name (items (CV.skills cv)).
Proof.
  unfold CV.skill_names. destruct (CV.skills cv) as [[|s l]|]; reflexivity.
Qed.

Lemma mandatory_skills_filter (job : Job.t) :
  Job.mandatory_skills job =
  filter JobRequirement.is_mandatory (items (Job.required_skills job)).
Proof.
  unfold Job.mandatory_skills.
  destruct (Job.required_skills job) as [[|r l]|]; reflexivity.
Qed.

(** The list [missing_mandatory] of rule 1 names the mandatory requirements
    whose skill the CV does not list. *)
Lemma missing_mandatory_absent (cv : CV.t) (job : Job.t) :
  MatchingService.missing_mandatory cv job =
  map JobRequirement.skill (absent_mandatory cv job).
Proof.
  unfold MatchingService.missing_mandatory, absent_mandatory.
  rewrite skill_names_map, mandatory_skills_filter.
  induction (items (Job.required_skills job)) as [|r l IH];
    cbn; [reflexivity|].
  destruct (JobRequirement.is_mandatory r); cbn; [|exact IH].
  rewrite str_in_existsb.
  destruct (existsb _ _); cbn; [exact IH | now rewrite IH].
Qed.

Lemma missing_mandatory_length (cv : CV.t) (job : Job.t) :
  List.length (MatchingService.missing_mandatory cv job) =
  List.length (absent_mandatory cv job).
Proof. rewrite missing_mandatory_absent. apply length_map. Qed.

(** The overall score the engine returns, as the code computes it. *)
Lemma apply_business_rules_ok (format_1f : Q -> string)
  (a : MatchAnalysis.t) (cv : CV.t) (job : Job.t) (recs : list string) :
  MatchAnalysis.recommendations a = Some recs ->
  exists a',
    MatchingService._apply_business_rules format_1f a cv job = Ok a'
    /\ MatchAnalysis.overall_score a' =
       let s := MatchAnalysis.overall_score a in
       let years := CV.total_experience_years cv in
       let min_years := inject_Z (Job.min_experience_years job) in
       let mm := MatchingService.missing_mandatory cv job in
       let s1 :=
         match mm with
         | [] => s
         | _ :: _ =>
             Py.max 0 (s - inject_Z (Z.of_nat (List.length mm))
                           * (1 # 10) * 100)
         end in
       if Qle_bool min_years years
       then Py.min 100 (s1 + Py.min (1 # 10) ((years - min_years) * (2 # 100))
                               * 100)
       else s1.
Proof.
  intros Hrecs. unfold MatchingService._apply_business_rules.
  destruct (MatchingService.missing_mandatory cv job) as [|m mm];
    destruct (Qle_bool (inject_Z (Job.min_experience_years job))
                (CV.total_experience_years cv));
    cbn [MatchAnalysis.recommendations MatchAnalysis.set_overall_score
         MatchAnalysis.overall_score];
    rewrite Hrecs; eexists; split; reflexivity.
Qed.

Lemma init_recommendations (a0 : MatchAnalysis.t) :
  exists recs,
    MatchAnalysis.recommendations (MatchAnalysis.init a0) = Some recs.
Proof.
  destruct a0 as [? ? ? ? ? ? ? ? ? ? [r|] ? ? ?]; cbn; eauto.
Qed.

Lemma init_overall_score (a0 : MatchAnalysis.t) :
  MatchAnalysis.overall_score (MatchAnalysis.init a0) =
  MatchAnalysis.overall_score a0.
Proof. reflexivity. Qed.




(** ** Business rules: the range of the overall score *)




(** The worked example in binary64 arithmetic: 60 months of experience
    against a minimum of 2 years, one absent mandatory skill, base 95. *)
Example worked_example_binary64 :
  Binary64.boosted (Binary64.penalised 95 1) (60 / 12) 2 = 91%float.
Proof. reflexivity. Qed.

(** Floor and ceiling: base 5 with three absent mandatory skills gives 0,
    base 98 with a surplus of 18 years gives 100. *)
Example score_floor :
  exists a',
    MatchingService._apply_business_rules no_format (analysis_of 5)
      (cv_of "cv.pdf" "text" [] [])
      (job_of [JobRequirement.mk "Python" EXPERT true 1;
               JobRequirement.mk "Go" ADVANCED true 1;
               JobRequirement.mk "SQL" BEGINNER true 1;
               JobRequirement.mk "Rust" BEGINNER false 1] 1 []) = Ok a'
    /\ MatchAnalysis.overall_score a' == 0.
Proof. eexists. split; reflexivity. Qed.

Example score_ceiling :
  exists a',
    MatchingService._apply_business_rules no_format (analysis_of 98)
      (cv_of "cv.pdf" "text" [] [120%Z; 120%Z]) (job_of [] 2 []) = Ok a'
    /\ MatchAnalysis.overall_score a' == 100.
Proof. eexists. split; reflexivity. Qed.

(** An analysis whose recommendations were set to [None] after its
    construction makes rule 3 fail. *)
Example apply_business_rules_none :
  MatchingService._apply_business_rules no_format
    (MatchAnalysis.set_recommendations (analysis_of 50) None)
    (cv_of "cv.pdf" "text" [] []) (job_of [] 0 [])
  = Raise (AttributeError "'NoneType' object has no attribute 'extend'").
Proof. reflexivity. Qed.

(** ** Business rules: the recommendations *)

(** The engine appends the generated lines to the recommendations. *)
Lemma apply_business_rules_recommendations (format_1f : Q -> string)
  (a : MatchAnalysis.t) (cv : CV.t) (job : Job.t) (recs : list string) :
  MatchAnalysis.recommendations a = Some recs ->
  exists a',
    MatchingService._apply_business_rules format_1f a cv job = Ok a'
    /\ MatchAnalysis.recommendations a' =
       Some (recs ++ MatchingService._generate_recommendations
                       format_1f cv job a)%list.
Proof.
  intros Hrecs. unfold MatchingService._apply_business_rules.
  destruct (MatchingService.missing_mandatory cv job) as [|m mm];
    destruct (Qle_bool (inject_Z (Job.min_experience_years job))
                (CV.total_experience_years cv));
    cbn [MatchAnalysis.recommendations MatchAnalysis.set_overall_score
         MatchAnalysis.overall_score];
    rewrite Hrecs; eexists; split; reflexivity.
Qed.

Lemma edu_line_uncovered (cv : CV.t) (job : Job.t) :
  MatchingService.edu_line cv job =
  match items (CV.education cv), uncovered_education cv job with
  | _ :: _, m :: _ => ["Consider pursuing: " ++ m]
  | _, _ => []
  end.
Proof.
  unfold MatchingService.edu_line, uncovered_education.
  destruct (Job.required_education job) as [[|r rs]|];
    destruct (CV.education cv) as [[|e es]|]; try reflexivity.
  cbn [items].
  set (degrees := map Education.degree (e :: es)).
  assert (Hin : forall x,
             Py.str_in (Py.lower x)
               (map (fun edu => Py.lower (Education.degree edu)) (e :: es))
             = existsb (fun d => String.eqb (Py.lower x) (Py.lower d))
                 degrees).
  { intros x. subst degrees. rewrite str_in_existsb.
    induction (e :: es) as [|y l IH]; cbn; [reflexivity|]. now rewrite IH. }
  assert (Hf :
    filter (fun edu =>
              negb (Py.str_in (Py.lower edu)
                      (map (fun edu0 => Py.lower (Education.degree edu0))
                         (e :: es)))) (r :: rs)
    = filter (fun r0 =>
                negb (existsb (fun d => String.eqb (Py.lower r0) (Py.lower d))
                        degrees)) (r :: rs)).
  { apply filter_ext. intros x. now rewrite Hin. }
  rewrite Hf. reflexivity.
Qed.




(** ** Converters: skill levels *)

Lemma named_level_value (s : string) (l : SkillLevel) :
  named_level s = Some l <-> Py.lower s = SkillLevelEnum.value l.
Proof.
  unfold named_level. split.
  - intros H. apply find_some in H as [_ H].
    apply String.eqb_eq in H. now symmetry.
  - intros ->. destruct l; reflexivity.
Qed.

Lemma named_level_valid (s : string) :
  Py.str_in (Py.lower s) Converters.valid_levels =
  match named_level s with Some _ => true | None => false end.
Proof.
  unfold named_level, Py.str_in, Converters.valid_levels,
    SkillLevelEnum.members.
  cbn [existsb List.find SkillLevelEnum.value].
  rewrite (String.eqb_sym (Py.lower s) "beginner"),
    (String.eqb_sym (Py.lower s) "intermediate"),
    (String.eqb_sym (Py.lower s) "advanced"),
    (String.eqb_sym (Py.lower s) "expert").
  destruct (String.eqb "beginner" (Py.lower s)); [reflexivity|].
  destruct (String.eqb "intermediate" (Py.lower s)); [reflexivity|].
  destruct (String.eqb "advanced" (Py.lower s)); [reflexivity|].
  destruct (String.eqb "expert" (Py.lower s)); reflexivity.
Qed.

Lemma of_value_named (s : string) (l : SkillLevel) :
  named_level s = Some l -> SkillLevelEnum.of_value (Py.lower s) = Ok l.
Proof.
  unfold named_level, SkillLevelEnum.of_value. now intros ->.
Qed.

(** A skill entry whose level is a text, or that has no level, is kept: its
    level is the one the text names without regard to case, and [BEGINNER]
    when it names none. *)
Lemma skill_of_text_level (d : list (string * pyval)) (s : string) :
  PyVal.dict_get d "level" (PStr "beginner") = PStr s ->
  exists sk,
    Converters.skill_of (PDict d) = Ok sk
    /\ Dyn.Skill.level sk =
       match named_level s with Some l => l | None => BEGINNER end.
Proof.
  intros Hget. unfold Converters.skill_of, Converters.level_of.
  cbn [PyVal.get bind]. rewrite Hget. cbn [PyVal.lower bind].
  rewrite named_level_valid.
  destruct (named_level s) as [l|] eqn:El; cbn [negb].
  - rewrite (of_value_named s l El). cbn. eauto.
  - cbn. eauto.
Qed.

Lemma requirement_of_text_level (preferred : bool)
  (d : list (string * pyval)) (s : string) :
  PyVal.dict_get d "required_level" (PStr "beginner") = PStr s ->
  exists r,
    Converters.requirement_of preferred (PDict d) = Ok r
    /\ Dyn.JobRequirement.required_level r =
       match named_level s with Some l => l | None => BEGINNER end.
Proof.
  intros Hget. unfold Converters.requirement_of, Converters.level_of.
  cbn [PyVal.get bind]. rewrite Hget. cbn [PyVal.lower bind].
  rewrite named_level_valid.
  destruct (named_level s) as [l|] eqn:El; cbn [negb].
  - rewrite (of_value_named s l El). destruct preferred; cbn; eauto.
  - destruct preferred; cbn; eauto.
Qed.

(** In a skill match a level that is a text naming no member, or that is
    [None], is left absent. *)
Lemma optional_level_text (s : string) :
  Converters.optional_level (PStr s) = Ok (named_level s).
Proof.
  unfold Converters.optional_level. cbn [PyVal.truth PyVal.lower bind].
  destruct s as [|c t]; [reflexivity|]. cbn [Py.truthy].
  rewrite named_level_valid.
  destruct (named_level (String c t)) as [l|] eqn:El; [|reflexivity].
  now rewrite (of_value_named _ l El).
Qed.

Lemma optional_level_none : Converters.optional_level PNone = Ok None.
Proof. reflexivity. Qed.

(** The example of the specification: level "ninja" gives a skill with
    level [BEGINNER]; the record is kept. *)
Example convert_ninja :
  exists cv,
    Converters.convert_to_cv_entity payload_ninja "raw text" 0%Z = Ok cv
    /\ map (fun sk => (Dyn.Skill.name sk, Dyn.Skill.level sk))
         (Dyn.CV.skills cv)
       = [(PStr "Python", BEGINNER); (PStr "Go", EXPERT);
          (PStr "SQL", BEGINNER)].
Proof. eexists. split; reflexivity. Qed.

Example convert_match_levels :
  exists a,
    Converters.convert_to_match_analysis payload_match "cv" "job" 0%Z = Ok a
    /\ map (fun m => (Dyn.SkillMatch.cv_skill_level m,
                      Dyn.SkillMatch.required_level m))
         (Dyn.MatchAnalysis.skill_matches a)
       = [(None, Some ADVANCED)].
Proof. eexists. split; reflexivity. Qed.

(** C5: the code at the failing input.  A level that is [null] (what the
    prompt asks the model to write for missing information) makes
    [.lower()] raise [AttributeError], which the handler of the loop does
    not catch: no skill of level [BEGINNER] is produced, the conversion of
    the whole entity is aborted.  The same holds for a requirement. *)
Theorem null_level_aborts :
  Converters.convert_to_cv_entity payload_null_level "raw text" 0%Z
  = Raise (AttributeError "'NoneType' object has no attribute 'lower'")
  /\ Converters.convert_to_job_entity payload_null_required_level
       "description" 0%Z
     = Raise (AttributeError "'NoneType' object has no attribute 'lower'").
Proof. split; reflexivity. Qed.

(** ** Converters: malformed sub-records *)

(** What the handler of a loop does catch is skipped. *)
Lemma for_try_skips {A : Type} (body : pyval -> result A)
  (x : pyval) (rest : list pyval) (acc : list A) (e : exn) :
  body x = Raise e -> Converters.is_value_or_type_error e = true ->
  Converters.for_try body (x :: rest) acc = Converters.for_try body rest acc.
Proof. intros Hx He. cbn. now rewrite Hx, He. Qed.

(** What it does not catch ends the loop, whatever the later items are. *)
Lemma for_try_aborts {A : Type} (body : pyval -> result A)
  (x : pyval) (rest : list pyval) (acc : list A) (e : exn) :
  body x = Raise e -> Converters.is_value_or_type_error e = false ->
  Converters.for_try body (x :: rest) acc = Raise e.
Proof. intros Hx He. cbn. now rewrite Hx, He. Qed.

(** A loop without handler ends at the first item that raises. *)
Lemma for_each_aborts {A : Type} (body : pyval -> result A)
  (x : pyval) (rest : list pyval) (acc : list A) (e : exn) :
  body x = Raise e ->
  Converters.for_each body (x :: rest) acc = Raise e.
Proof. intros Hx. cbn. now rewrite Hx. Qed.

(** An entry that is not an object raises [AttributeError] in every loop
    body. *)
Lemma body_of_non_object (v : pyval) :
  (forall d, v <> PDict d) ->
  exists msg,
    Converters.skill_of v = Raise (AttributeError msg)
    /\ Converters.education_of v = Raise (AttributeError msg)
    /\ Converters.experience_of v = Raise (AttributeError msg)
    /\ Converters.requirement_of false v = Raise (AttributeError msg)
    /\ Converters.requirement_of true v = Raise (AttributeError msg)
    /\ Converters.skill_match_of v = Raise (AttributeError msg).
Proof.
  intros Hv. destruct v; try (eexists; repeat split; reflexivity).
  now destruct (Hv d).
Qed.

(** C3: the code at the failing input.  An education entry that is a text
    instead of an object, or an experience entry that is [null], raises
    [AttributeError] in a loop that has no handler; a skill entry that is a
    text raises it in a loop whose handler catches only [ValueError] and
    [TypeError].  In each case the entry is not dropped: the conversion
    returns no entity, and [extract_cv_data] ends with an
    [AIServiceError]. *)
Theorem malformed_entry_aborts :
  Converters.convert_to_cv_entity payload_bad_education "raw text" 0%Z
  = Raise (AttributeError "'str' object has no attribute 'get'")
  /\ Converters.convert_to_cv_entity payload_bad_experience "raw text" 0%Z
     = Raise (AttributeError "'NoneType' object has no attribute 'get'")
  /\ Converters.convert_to_cv_entity payload_bad_skill "raw text" 0%Z
     = Raise (AttributeError "'str' object has no attribute 'get'")
  /\ snd (GeminiAIService.extract_cv_data
            (fun _ => Ok "{...}")
            (fun _ => inl payload_bad_education)
            (fun raw_text => raw_text) "raw text" 0%Z)
     = Raise (AIServiceError
                "Failed to extract CV data: 'str' object has no attribute 'get'").
Proof. repeat split; reflexivity. Qed.

(** ** Isolation of the JSON object in a response *)

Section Occurrences.

Variable c : ascii.

Lemma index_of_occurs (s : string) :
  if occurs c s
  then exists i, Py.index_of c s = Some i /\ (i < String.length s)%nat
  else Py.index_of c s = None.
Proof.
  induction s as [|x t IH]; cbn; [reflexivity|].
  destruct (Ascii.eqb x c); cbn.
  - exists O. split; [reflexivity | lia].
  - destruct (occurs c t).
    + destruct IH as (i & -> & Hi). exists (S i). split; [reflexivity|lia].
    + now rewrite IH.
Qed.

Lemma rindex_of_occurs (s : string) :
  if occurs c s
  then exists j, Py.rindex_of c s = Some j /\ (j < String.length s)%nat
  else Py.rindex_of c s = None.
Proof.
  induction s as [|x t IH]; cbn; [reflexivity|].
  destruct (occurs c t).
  - destruct IH as (j & -> & Hj). rewrite orb_true_r.
    exists (S j). split; [reflexivity|lia].
  - rewrite IH, orb_false_r. destruct (Ascii.eqb x c).
    + exists O. split; [reflexivity|lia].
    + reflexivity.
Qed.

Lemma rindex_of_none (s : string) :
  Py.rindex_of c s = None <-> occurs c s = false.
Proof.
  pose proof (rindex_of_occurs s) as H. destruct (occurs c s).
  - destruct H as (j & -> & _). split; discriminate.
  - tauto.
Qed.

Lemma upto_last_empty (s : string) :
  upto_last c s = "" <-> occurs c s = false.
Proof.
  induction s as [|x t IH]; cbn; [tauto|].
  destruct (upto_last c t) eqn:E.
  - assert (Ht : occurs c t = false) by now apply IH.
    rewrite Ht, orb_false_r. destruct (Ascii.eqb x c); split;
      (discriminate || reflexivity).
  - split; [discriminate|]. intros H.
    apply orb_false_iff in H as [_ H]. apply IH in H. discriminate.
Qed.

Lemma occurs_from_first (d : ascii) (s : string) :
  occurs c s = false -> occurs c (from_first d s) = false.
Proof.
  induction s as [|x t IH]; cbn; [reflexivity|].
  intros H. apply orb_false_iff in H as [Hx Ht].
  destruct (Ascii.eqb x d); cbn; [now rewrite Hx, Ht | now apply IH].
Qed.

Lemma substring_zero (n : nat) (s : string) : substring n 0 s = "".
Proof.
  revert n. induction s as [|x t IH]; intros [|n]; cbn; auto.
Qed.

Lemma substring_upto_last (s : string) (j : nat) :
  Py.rindex_of c s = Some j -> substring 0 (S j) s = upto_last c s.
Proof.
  revert j. induction s as [|x t IH]; cbn; [discriminate|].
  intros j. destruct (Py.rindex_of c t) as [k|] eqn:Ek.
  - intros [= <-]. rewrite (IH k eq_refl).
    destruct (upto_last c t) eqn:Eu; [|reflexivity].
    apply upto_last_empty, rindex_of_none in Eu. congruence.
  - destruct (Ascii.eqb x c); [|discriminate]. intros [= <-].
    apply rindex_of_none, upto_last_empty in Ek. rewrite Ek.
    destruct t; reflexivity.
Qed.

(** White space around the text does not matter to a character that is
    not white space. *)
Hypothesis c_not_space : Py.is_space c = false.

Lemma eqb_space (x : ascii) : Py.is_space x = true -> Ascii.eqb x c = false.
Proof.
  intros Hx. destruct (Ascii.eqb_spec x c) as [->|]; congruence.
Qed.

Lemma from_first_lstrip (s : string) :
  from_first c (Py.lstrip s) = from_first c s.
Proof.
  induction s as [|x t IH]; cbn; [reflexivity|].
  destruct (Py.is_space x) eqn:Ex; [|reflexivity].
  now rewrite (eqb_space x Ex).
Qed.

Lemma rstrip_cons (x : ascii) (t : string) :
  Py.is_space x = false -> Py.rstrip (String x t) = String x (Py.rstrip t).
Proof.
  intros Hx. cbn. rewrite Hx. destruct (Py.rstrip t); reflexivity.
Qed.

Lemma from_first_rstrip (s : string) :
  from_first c (Py.rstrip s) = Py.rstrip (from_first c s).
Proof.
  induction s as [|x t IH]; [reflexivity|].
  cbn [from_first]. destruct (Ascii.eqb x c) eqn:Ex.
  - apply Ascii.eqb_eq in Ex. subst x.
    rewrite (rstrip_cons c t c_not_space). cbn. now rewrite Ascii.eqb_refl.
  - rewrite <- IH. cbn [Py.rstrip].
    destruct (Py.rstrip t) eqn:Er.
    + destruct (Py.is_space x); cbn; [reflexivity | now rewrite Ex].
    + cbn [from_first]. now rewrite Ex.
Qed.

Lemma upto_last_rstrip (s : string) :
  upto_last c (Py.rstrip s) = upto_last c s.
Proof.
  induction s as [|x t IH]; [reflexivity|].
  cbn [Py.rstrip upto_last]. rewrite <- IH.
  destruct (Py.rstrip t) eqn:Er.
  - cbn [upto_last]. destruct (Py.is_space x) eqn:Ex.
    + now rewrite (eqb_space x Ex).
    + reflexivity.
  - reflexivity.
Qed.

Lemma occurs_lstrip (s : string) : occurs c (Py.lstrip s) = occurs c s.
Proof.
  induction s as [|x t IH]; cbn; [reflexivity|].
  destruct (Py.is_space x) eqn:Ex; [|reflexivity].
  now rewrite (eqb_space x Ex).
Qed.

Lemma occurs_rstrip (s : string) : occurs c (Py.rstrip s) = occurs c s.
Proof.
  induction s as [|x t IH]; [reflexivity|].
  cbn [Py.rstrip occurs]. rewrite <- IH.
  destruct (Py.rstrip t) eqn:Er.
  - destruct (Py.is_space x) eqn:Ex; cbn.
    + now rewrite (eqb_space x Ex).
    + reflexivity.
  - reflexivity.
Qed.

Lemma occurs_strip (s : string) : occurs c (Py.strip s) = occurs c s.
Proof. unfold Py.strip. now rewrite occurs_rstrip, occurs_lstrip. Qed.

End Occurrences.

(** The slice between the first [c] and the last [d] of a text. *)
Lemma slice_first_last (c d : ascii) (s : string) (i j : nat) :
  Py.index_of c s = Some i -> Py.rindex_of d s = Some j ->
  substring i (S j - i) s = upto_last d (from_first c s).
Proof.
  revert i j. induction s as [|x t IH]; cbn [Py.index_of]; [discriminate|].
  intros i j Hi Hj. cbn [from_first].
  destruct (Ascii.eqb x c).
  - injection Hi as <-. rewrite Nat.sub_0_r.
    now apply substring_upto_last.
  - destruct (Py.index_of c t) as [i'|] eqn:Ei; [|discriminate].
    injection Hi as <-. cbn [Py.rindex_of] in Hj.
    destruct (Py.rindex_of d t) as [k|] eqn:Ek.
    + injection Hj as <-. cbn [substring Nat.sub]. now apply IH.
    + destruct (Ascii.eqb x d); [|discriminate]. injection Hj as <-.
      cbn [substring Nat.sub]. rewrite substring_zero.
      apply rindex_of_none in Ek. symmetry.
      apply upto_last_empty. now apply occurs_from_first.
Qed.

Lemma object_text_strip (s : string) :
  object_text (Py.strip s) = object_text s.
Proof.
  unfold object_text, Py.strip.
  rewrite from_first_rstrip, upto_last_rstrip, from_first_lstrip;
    reflexivity.
Qed.

(** [_extract_json_from_response]: an error when a brace is missing, the
    text between the outer braces otherwise. *)
Lemma extract_json_from_response_spec (response : string) :
  GeminiAIService._extract_json_from_response response =
  if occurs "{" response && occurs "}" response
  then Ok (object_text response)
  else Raise (AIServiceError "No JSON found in AI response").
Proof.
  unfold GeminiAIService._extract_json_from_response, Py.find, Py.rfind.
  pose proof (index_of_occurs "{" response) as Hi.
  pose proof (rindex_of_occurs "}" response) as Hj.
  destruct (occurs "{" response); destruct (occurs "}" response); cbn [andb].
  - destruct Hi as (i & Ei & Hi). destruct Hj as (j & Ej & Hj).
    rewrite Ei, Ej.
    replace ((Z.of_nat i =? -1) || (Z.of_nat j =? -1))%Z with false
      by (symmetry; apply orb_false_iff; split; apply Z.eqb_neq; lia).
    f_equal. unfold Py.slice, Py.norm_index, object_text.
    replace (Z.of_nat i <? 0)%Z with false by (symmetry; apply Z.ltb_ge; lia).
    replace (Z.of_nat j + 1 <? 0)%Z with false
      by (symmetry; apply Z.ltb_ge; lia).
    rewrite <- (slice_first_last _ _ _ _ _ Ei Ej).
    f_equal; lia.
  - destruct Hi as (i & -> & _). rewrite Hj.
    now rewrite orb_true_r.
  - now rewrite Hi.
  - now rewrite Hi.
Qed.

Lemma from_first_split (c : ascii) (s : string) :
  exists pre, s = pre ++ from_first c s /\ occurs c pre = false.
Proof.
  induction s as [|x t IH]; cbn.
  - now exists "".
  - destruct (Ascii.eqb x c) eqn:Ex.
    + now exists "".
    + destruct IH as (pre & Hpre & Hocc).
      exists (String x pre). cbn. now rewrite <- Hpre, Ex, Hocc.
Qed.

Lemma upto_last_split (c : ascii) (s : string) :
  exists post, s = upto_last c s ++ post /\ occurs c post = false.
Proof.
  induction s as [|x t IH]; cbn.
  - now exists "".
  - destruct IH as (post & Hpost & Hocc).
    destruct (upto_last c t) eqn:Eu.
    + cbn in Hpost. subst post. destruct (Ascii.eqb x c) eqn:Ex.
      * exists t. now cbn.
      * exists (String x t). cbn. now rewrite Ex, Hocc.
    + exists post. split; [cbn; f_equal; exact Hpost | exact Hocc].
Qed.

(** The object text lies between a part without opening brace and a part
    without closing brace. *)
Lemma object_text_split (response : string) :
  exists pre post,
    response = pre ++ object_text response ++ post
    /\ occurs "{" pre = false /\ occurs "}" post = false.
Proof.
  destruct (from_first_split "{" response) as (pre & Hpre & Hocc).
  destruct (upto_last_split "}" (from_first "{" response))
    as (post & Hpost & Hocc').
  exists pre, post. unfold object_text. now rewrite <- Hpost.
Qed.

Lemma occurs_truthy (c : ascii) (s : string) :
  occurs c s = true -> Py.truthy s = true.
Proof. destruct s; [discriminate | reflexivity]. Qed.

(** C4: when the response has no opening or no closing brace, the
    extraction ends with an [AIServiceError] before [json.loads] is called;
    otherwise [json.loads] is called once, on the text from the first
    opening brace to the last closing brace, and its failure ends the
    extraction with an [AIServiceError] too.  No entity is returned in
    either case. *)
Theorem extract_cv_data_malformed
  (model_generate_content : string -> result string)
  (json_loads : string -> pyval + string)
  (create_cv_extraction_prompt : string -> string)
  (raw_text : string) (now : datetime) (response : string) :
  model_generate_content (create_cv_extraction_prompt raw_text)
  = Ok response ->
  let run :=
    GeminiAIService.extract_cv_data model_generate_content json_loads
      create_cv_extraction_prompt raw_text now in
  let prompt := create_cv_extraction_prompt raw_text in
  (occurs "{" response = false \/ occurs "}" response = false ->
   exists msg,
     run = ([GeminiAIService.Generate prompt], Raise (AIServiceError msg)))
  /\ (occurs "{" response = true -> occurs "}" response = true ->
      fst run = [GeminiAIService.Generate prompt;
                 GeminiAIService.JsonLoads (object_text response)]
      /\ forall msg,
          json_loads (object_text response) = inr msg ->
          snd run =
          Raise (AIServiceError ("Invalid JSON response from AI: " ++ msg))).
Proof.
  intros Hgen run prompt. subst run.
  unfold GeminiAIService.extract_cv_data, GeminiAIService._generate_content,
    GeminiAIService.call, GeminiAIService.catch.
  fold prompt. fold prompt in Hgen. rewrite Hgen.
  cbn [GeminiAIService.io_bind].
  pose proof (occurs_strip "{" eq_refl response) as Ho.
  pose proof (occurs_strip "}" eq_refl response) as Hc.
  destruct (Py.truthy (Py.strip response)) eqn:Et; cbn [negb].
  - rewrite extract_json_from_response_spec, Ho, Hc, object_text_strip.
    destruct (occurs "{" response) eqn:Eo;
      destruct (occurs "}" response) eqn:Ec; cbn [andb];
      (split; [intros [H|H]; try discriminate; cbn; eauto
              | intros H1 H2; try discriminate]).
    unfold GeminiAIService.lift, GeminiAIService.loads, GeminiAIService.call.
    cbn [GeminiAIService.io_bind].
    destruct (json_loads (object_text response)) as [v|m] eqn:El.
    + cbn [GeminiAIService.io_bind].
      destruct (Converters.convert_to_cv_entity v raw_text now)
        as [cv|[m|m|m|m|m]]; cbn; (split; [reflexivity | discriminate]).
    + cbn. split; [reflexivity|]. now intros msg [= ->].
  - assert (Hempty : Py.strip response = "")
      by (destruct (Py.strip response); [reflexivity | discriminate]).
    rewrite Hempty in Ho, Hc. cbn in Ho, Hc.
    split.
    + intros _. cbn. eauto.
    + intros H1. congruence.
Qed.

Lemma extract_cv_data_malformed_witness :
  (exists msg,
      GeminiAIService.extract_cv_data
        (fun _ => Ok "Sorry, I cannot read this CV.")
        (fun _ => inr "Expecting value")
        (fun raw_text => raw_text) "raw text" 0%Z
      = ([GeminiAIService.Generate "raw text"], Raise (AIServiceError msg)))
  /\ snd (GeminiAIService.extract_cv_data
            (fun _ => Ok "Here it is: {name: Ada} Done.")
            (fun _ => inr "Expecting property name")
            (fun raw_text => raw_text) "raw text" 0%Z)
     = Raise (AIServiceError
                "Invalid JSON response from AI: Expecting property name").
Proof.
  split.
  - apply (extract_cv_data_malformed
             (fun _ => Ok "Sorry, I cannot read this CV.")
             (fun _ => inr "Expecting value")
             (fun raw_text => raw_text) "raw text" 0%Z
             "Sorry, I cannot read this CV." eq_refl).
    left. reflexivity.
  - apply (extract_cv_data_malformed
             (fun _ => Ok "Here it is: {name: Ada} Done.")
             (fun _ => inr "Expecting property name")
             (fun raw_text => raw_text) "raw text" 0%Z
             "Here it is: {name: Ada} Done." eq_refl);
      reflexivity.
Defined.

(** A closing brace before the only opening brace gives an empty payload,
    which is handed to [json.loads] like any other. *)
Example extract_json_reversed_braces :
  GeminiAIService._extract_json_from_response "} {" = Ok ""
  /\ GeminiAIService._extract_json_from_response "text" =
     Raise (AIServiceError "No JSON found in AI response")
  /\ GeminiAIService._extract_json_from_response "a {k: {}} b" =
     Ok "{k: {}}".
Proof. repeat split; reflexivity. Qed.

(** * Further properties *)

(** ** Derived properties of the entities *)

Lemma sum_total_from (l : list Z) (acc : Z) :
  fold_left Z.add l acc = (acc + total l)%Z.
Proof.
  revert acc. induction l as [|x l IH]; intros acc; cbn.
  - lia.
  - rewrite IH. unfold total. cbn. lia.
Qed.

Lemma sum_total (l : list Z) : Py.sum l = total l.
Proof. unfold Py.sum. now rewrite sum_total_from. Qed.

Lemma total_nonneg (l : list Z) :
  Forall (fun m => (0 <= m)%Z) l -> (0 <= total l)%Z.
Proof.
  induction 1 as [|x l Hx _ IH]; unfold total in *; cbn; lia.
Qed.

Lemma total_experience_years_total (cv : CV.t) :
  CV.total_experience_years cv ==
  inject_Z (total (map Experience.duration_months
                     (items (CV.experience cv)))) / 12.
Proof.
  unfold CV.total_experience_years.
  destruct (CV.experience cv) as [[|e l]|]; cbn [items map];
    try reflexivity.
  now rewrite sum_total.
Qed.



(** X2: no mandatory skill is missing exactly when the name of every
    mandatory requirement among the required skills is, letter for letter,
    the name of a skill of the CV; preferred skills play no part. *)
Theorem missing_mandatory_nil_iff (cv : CV.t) (job : Job.t) :
  MatchingService.missing_mandatory cv job = [] <->
  (forall r,
      In r (items (Job.required_skills job)) ->
      JobRequirement.is_mandatory r = true ->
      exists s,
        In s (items (CV.skills cv))
        /\ Skill.name s = JobRequirement.skill r).
Proof.
  rewrite missing_mandatory_absent. unfold absent_mandatory.
  split.
  - intros Hnil r Hr Hm.
    apply map_eq_nil in Hnil.
    destruct (existsb (fun s => String.eqb (JobRequirement.skill r)
                                           (Skill.name s))
                (items (CV.skills cv))) eqn:Ex.
    + apply existsb_exists in Ex as (s & Hs & Heq).
      apply String.eqb_eq in Heq. eauto.
    + assert (Hin : In r []).
      { rewrite <- Hnil. apply filter_In. split; [exact Hr|].
        now rewrite Hm, Ex. }
      destruct Hin.
  - intros Hall.
    match goal with
    | |- map _ ?l = [] => destruct l as [|r l'] eqn:El; [reflexivity|]
    end.
    assert (Hin : In r (r :: l')) by (left; reflexivity).
    rewrite <- El in Hin. apply filter_In in Hin as [Hr Hf].
    apply andb_true_iff in Hf as [Hm Hne].
    destruct (Hall r Hr Hm) as (s & Hs & Heq).
    assert (Hex : existsb (fun s => String.eqb (JobRequirement.skill r)
                                                (Skill.name s))
                    (items (CV.skills cv)) = true).
    { apply existsb_exists. exists s. split; [exact Hs|].
      apply String.eqb_eq. now symmetry. }
    rewrite Hex in Hne. discriminate.
Qed.

(** X3: the recommendation level is "Unknown" exactly when the match has no
    analysis, and a completed match never has it. *)
Theorem recommendation_level_unknown_iff (m : Match.t) :
  (Match.recommendation_level m = "Unknown" <-> Match.analysis m = None)
  /\ (Match.is_completed m = true ->
      Match.recommendation_level m <> "Unknown").
Proof.
  assert (Hiff : Match.recommendation_level m = "Unknown"
                 <-> Match.analysis m = None).
  { unfold Match.recommendation_level.
    destruct (Match.analysis m) as [a|]; [|tauto].
    destruct (Qle_bool 80 _); [split; discriminate|].
    destruct (Qle_bool 60 _); [split; discriminate|].
    destruct (Qle_bool 40 _); split; discriminate. }
  split; [exact Hiff|].
  intros Hc Hu. apply Hiff in Hu. unfold Match.is_completed in Hc.
  rewrite Hu in Hc. destruct (Match.status m); discriminate.
Qed.

Lemma recommendation_level_unknown_iff_witness :
  Match.recommendation_level (match_with_score 10) <> "Unknown".
Proof.
  apply (recommendation_level_unknown_iff (match_with_score 10)).
  reflexivity.
Defined.

(** X4: the recommendation level never goes down when the overall score
    goes up. *)
Theorem recommendation_level_monotone (m1 m2 : Match.t)
  (a1 a2 : MatchAnalysis.t) :
  Match.analysis m1 = Some a1 -> Match.analysis m2 = Some a2 ->
  MatchAnalysis.overall_score a1 <= MatchAnalysis.overall_score a2 ->
  (label_rank (Match.recommendation_level m1)
   <= label_rank (Match.recommendation_level m2))%nat.
Proof.
  intros H1 H2 Hle. unfold Match.recommendation_level. rewrite H1, H2.
  set (s1 := MatchAnalysis.overall_score a1) in *.
  set (s2 := MatchAnalysis.overall_score a2) in *.
  destruct (Qle_bool 80 s1) eqn:A1;
    [apply Qle_bool_iff in A1 | apply Qle_bool_false in A1];
  (destruct (Qle_bool 60 s1) eqn:B1;
    [apply Qle_bool_iff in B1 | apply Qle_bool_false in B1]);
  (destruct (Qle_bool 40 s1) eqn:C1;
    [apply Qle_bool_iff in C1 | apply Qle_bool_false in C1]);
  (destruct (Qle_bool 80 s2) eqn:A2;
    [apply Qle_bool_iff in A2 | apply Qle_bool_false in A2]);
  (destruct (Qle_bool 60 s2) eqn:B2;
    [apply Qle_bool_iff in B2 | apply Qle_bool_false in B2]);
  (destruct (Qle_bool 40 s2) eqn:C2;
    [apply Qle_bool_iff in C2 | apply Qle_bool_false in C2]);
  cbn; try lia; exfalso; lra.
Qed.

Lemma recommendation_level_monotone_witness :
  (label_rank (Match.recommendation_level (match_with_score 59))
   <= label_rank (Match.recommendation_level (match_with_score 60)))%nat.
Proof.
  apply (recommendation_level_monotone
           (match_with_score 59) (match_with_score 60) _ _ eq_refl eq_refl).
  discriminate.
Defined.

(** ** What the business rules keep and how far they move the score *)

(** The lines [_generate_recommendations] returns are at most three. *)
Lemma generate_recommendations_length (format_1f : Q -> string)
  (cv : CV.t) (job : Job.t) (a : MatchAnalysis.t) :
  (List.length (MatchingService._generate_recommendations format_1f cv job a)
   <= 3)%nat.
Proof.
  unfold MatchingService._generate_recommendations, MatchingService.edu_line.
  destruct (MatchAnalysis.missing_skills a) as [[|x l]|];
    destruct (Qle_bool (MatchAnalysis.experience_gap_years a) 0);
    destruct (Job.required_education job) as [[|r rs]|];
    destruct (CV.education cv) as [[|e es]|];
    cbn [negb app List.length]; try lia;
    match goal with
    | |- context [filter ?f ?l] => destruct (filter f l)
    end; cbn; lia.
Qed.

(** X5: the engine touches two fields only.  The identifiers, the three
    other scores, the skill matches, the missing and matching skills, the
    experience gap, the interview tips, the date and the model name are
    returned as they came; the recommendations that were there stay in
    front, followed by at most three new lines. *)
Theorem apply_business_rules_frame (format_1f : Q -> string)
  (a a' : MatchAnalysis.t) (cv : CV.t) (job : Job.t) :
  MatchingService._apply_business_rules format_1f a cv job = Ok a' ->
  MatchAnalysis.cv_id a' = MatchAnalysis.cv_id a
  /\ MatchAnalysis.job_id a' = MatchAnalysis.job_id a
  /\ MatchAnalysis.skills_score a' = MatchAnalysis.skills_score a
  /\ MatchAnalysis.experience_score a' = MatchAnalysis.experience_score a
  /\ MatchAnalysis.education_score a' = MatchAnalysis.education_score a
  /\ MatchAnalysis.skill_matches a' = MatchAnalysis.skill_matches a
  /\ MatchAnalysis.missing_skills a' = MatchAnalysis.missing_skills a
  /\ MatchAnalysis.matching_skills a' = MatchAnalysis.matching_skills a
  /\ MatchAnalysis.experience_gap_years a'
     = MatchAnalysis.experience_gap_years a
  /\ MatchAnalysis.interview_tips a' = MatchAnalysis.interview_tips a
  /\ MatchAnalysis.analysis_date a' = MatchAnalysis.analysis_date a
  /\ MatchAnalysis.ai_model_used a' = MatchAnalysis.ai_model_used a
  /\ exists old added,
       MatchAnalysis.recommendations a = Some old
       /\ MatchAnalysis.recommendations a' = Some (old ++ added)%list
       /\ (List.length added <= 3)%nat.
Proof.
  unfold MatchingService._apply_business_rules.
  destruct (MatchingService.missing_mandatory cv job) as [|m mm];
    destruct (Qle_bool (inject_Z (Job.min_experience_years job))
                (CV.total_experience_years cv));
    cbn [MatchAnalysis.recommendations MatchAnalysis.set_overall_score];
    (destruct (MatchAnalysis.recommendations a) as [old|] eqn:Hold;
     [|discriminate]);
    intros [= <-]; cbn;
    repeat (split; [reflexivity|]);
    exists old; eexists; (split; [reflexivity|]);
    (split; [reflexivity | apply generate_recommendations_length]).
Qed.

Lemma apply_business_rules_frame_witness :
  exists a',
    MatchingService._apply_business_rules no_format
      (analysis_with ["Go"] (3 # 2) ["first"])
      (cv_with_degrees []) (job_of [] 0 []) = Ok a'
    /\ MatchAnalysis.missing_skills a' = Some ["Go"]
    /\ MatchAnalysis.experience_gap_years a' = 3 # 2.
Proof.
  eexists. split; [reflexivity|].
  destruct (apply_business_rules_frame no_format
              (analysis_with ["Go"] (3 # 2) ["first"]) _
              (cv_with_degrees []) (job_of [] 0 []) eq_refl)
    as (_ & _ & _ & _ & _ & _ & Hm & _ & Hg & _).
  split; [exact Hm | exact Hg].
Defined.

(** The score after both rules, as a function of the score before. *)
Lemma apply_business_rules_score_of (format_1f : Q -> string)
  (a a' : MatchAnalysis.t) (cv : CV.t) (job : Job.t) :
  MatchingService._apply_business_rules format_1f a cv job = Ok a' ->
  MatchAnalysis.overall_score a' ==
  spec_boost
    (match List.length (absent_mandatory cv job) with
     | O => MatchAnalysis.overall_score a
     | _ => spec_penalty (MatchAnalysis.overall_score a)
              (List.length (absent_mandatory cv job))
     end)
    (CV.total_experience_years cv)
    (inject_Z (Job.min_experience_years job)).
Proof.
  intros Hrun.
  destruct (MatchAnalysis.recommendations a) as [recs|] eqn:Hrecs.
  2:{ unfold MatchingService._apply_business_rules in Hrun.
      destruct (MatchingService.missing_mandatory cv job);
        destruct (Qle_bool _ _);
        cbn [MatchAnalysis.recommendations MatchAnalysis.set_overall_score]
          in Hrun; rewrite Hrecs in Hrun; discriminate. }
  destruct (apply_business_rules_ok format_1f a cv job recs Hrecs)
    as (a'' & Hrun' & Hscore).
  rewrite Hrun in Hrun'. injection Hrun' as <-.
  rewrite Hscore. cbv zeta.
  set (s := MatchAnalysis.overall_score a).
  set (years := CV.total_experience_years cv).
  set (min_years := inject_Z (Job.min_experience_years job)).
  pose proof (missing_mandatory_length cv job) as Hlen.
  set (missing := List.length (absent_mandatory cv job)) in *.
  assert (Hs1 :
    match MatchingService.missing_mandatory cv job with
    | [] => s
    | _ :: _ =>
        Py.max 0 (s - inject_Z (Z.of_nat
                     (List.length (MatchingService.missing_mandatory cv job)))
                      * (1 # 10) * 100)
    end == match missing with O => s | _ => spec_penalty s missing end).
  { destruct (MatchingService.missing_mandatory cv job) as [|m mm] eqn:Emm.
    - cbn in Hlen. rewrite <- Hlen. reflexivity.
    - rewrite Hlen. destruct missing as [|k]; [discriminate|].
      unfold spec_penalty.
      destruct (py_max_spec 0 (s - inject_Z (Z.of_nat (S k)) * (1 # 10) * 100))
        as [[H1 ->]|[H1 ->]];
      destruct (Q.max_spec 0 (s - 10 * inject_Z (Z.of_nat (S k))))
        as [[H2 ->]|[H2 ->]]; lra. }
  set (s1 := match MatchingService.missing_mandatory cv job with
             | [] => s | _ :: _ => _ end) in *.
  set (p := match missing with O => s | _ => spec_penalty s missing end) in *.
  unfold spec_boost. destruct (Qle_bool min_years years); [|exact Hs1].
  destruct (py_min_spec (1 # 10) ((years - min_years) * (2 # 100)))
    as [[H1 ->]|[H1 ->]];
  destruct (Q.min_spec 10 (2 * (years - min_years)))
    as [[H2 E2]|[H2 E2]];
  match goal with
  | |- Py.min 100 ?x == Qmin 100 ?y =>
      destruct (py_min_spec 100 x) as [[H3 ->]|[H3 ->]];
      destruct (Q.min_spec 100 y) as [[H4 E4]|[H4 E4]]
  end; lra.
Qed.

Lemma spec_penalty_cases (s : Q) (n : nat) :
  let p := spec_penalty s n in
  let d := 10 * inject_Z (Z.of_nat n) in
  0 <= d /\ ((s - d <= 0 /\ p == 0) \/ (0 < s - d /\ p == s - d)).
Proof.
  intros p d. subst p. unfold spec_penalty. fold d.
  assert (0 <= inject_Z (Z.of_nat n)).
  { change 0 with (inject_Z 0). rewrite <- Zle_Qle. lia. }
  split; [subst d; lra|].
  destruct (Q.max_spec 0 (s - d)) as [[H1 H2]|[H1 H2]]; [right|left];
    split; auto; lra.
Qed.

Lemma spec_boost_cases (p years min_years : Q) :
  let r := spec_boost p years min_years in
  (years < min_years /\ r == p)
  \/ (min_years <= years
      /\ exists b, 0 <= b /\ b <= 10
                   /\ ((p + b <= 100 /\ r == p + b)
                       \/ (100 < p + b /\ r == 100))).
Proof.
  intros r. subst r. unfold spec_boost.
  destruct (Qle_bool min_years years) eqn:E.
  - apply Qle_bool_iff in E. right. split; [exact E|].
    exists (Qmin 10 (2 * (years - min_years))).
    destruct (Q.min_spec 10 (2 * (years - min_years))) as [[H1 H2]|[H1 H2]];
      (split; [lra|]); (split; [lra|]);
      destruct (Q.min_spec 100 (p + Qmin 10 (2 * (years - min_years))))
        as [[H3 H4]|[H3 H4]]; [right | left | right | left];
      split; auto; lra.
  - apply Qle_bool_false in E. left. split; [exact E | reflexivity].
Qed.



(** X7: for one CV and one job, a higher score before the rules never gives
    a lower score after them. *)
Theorem apply_business_rules_monotone (format_1f : Q -> string)
  (a1 a2 a1' a2' : MatchAnalysis.t) (cv : CV.t) (job : Job.t) :
  MatchingService._apply_business_rules format_1f a1 cv job = Ok a1' ->
  MatchingService._apply_business_rules format_1f a2 cv job = Ok a2' ->
  MatchAnalysis.overall_score a1 <= MatchAnalysis.overall_score a2 ->
  MatchAnalysis.overall_score a1' <= MatchAnalysis.overall_score a2'.
Proof.
  intros H1 H2 Hle.
  rewrite (apply_business_rules_score_of format_1f a1 a1' cv job H1),
    (apply_business_rules_score_of format_1f a2 a2' cv job H2).
  set (s1 := MatchAnalysis.overall_score a1) in *.
  set (s2 := MatchAnalysis.overall_score a2) in *.
  set (n := List.length (absent_mandatory cv job)).
  assert (Hp : match n with O => s1 | _ => spec_penalty s1 n end
               <= match n with O => s2 | _ => spec_penalty s2 n end).
  { destruct n as [|k]; [exact Hle|]. unfold spec_penalty.
    destruct (Q.max_spec 0 (s1 - 10 * inject_Z (Z.of_nat (S k))))
      as [[A1 A2]|[A1 A2]];
    destruct (Q.max_spec 0 (s2 - 10 * inject_Z (Z.of_nat (S k))))
      as [[B1 B2]|[B1 B2]]; lra. }
  set (p1 := match n with O => s1 | _ => spec_penalty s1 n end) in *.
  set (p2 := match n with O => s2 | _ => spec_penalty s2 n end) in *.
  unfold spec_boost.
  destruct (Qle_bool (inject_Z (Job.min_experience_years job))
              (CV.total_experience_years cv)); [|exact Hp].
  set (b := Qmin 10 (2 * (CV.total_experience_years cv
                          - inject_Z (Job.min_experience_years job)))).
  destruct (Q.min_spec 100 (p1 + b)) as [[A1 A2]|[A1 A2]];
  destruct (Q.min_spec 100 (p2 + b)) as [[B1 B2]|[B1 B2]]; lra.
Qed.

Lemma apply_business_rules_monotone_witness :
  exists a1' a2',
    MatchingService._apply_business_rules no_format (analysis_of 5)
      (cv_of "cv.pdf" "text" [] [60%Z])
      (job_of [JobRequirement.mk "Python" EXPERT true 1] 2 []) = Ok a1'
    /\ MatchingService._apply_business_rules no_format (analysis_of 99)
         (cv_of "cv.pdf" "text" [] [60%Z])
         (job_of [JobRequirement.mk "Python" EXPERT true 1] 2 []) = Ok a2'
    /\ MatchAnalysis.overall_score a1' <= MatchAnalysis.overall_score a2'.
Proof.
  eexists. eexists. split; [reflexivity|]. split; [reflexivity|].
  apply (apply_business_rules_monotone no_format
           (analysis_of 5) (analysis_of 99) _ _
           (cv_of "cv.pdf" "text" [] [60%Z])
           (job_of [JobRequirement.mk "Python" EXPERT true 1] 2 [])
           eq_refl eq_refl).
  discriminate.
Defined.

(** X8: the engine has nothing to recommend exactly when the analysis lists
    no missing skill, its experience gap is not positive, and either the CV
    has no education entry or every required education is covered by a
    degree of the CV. *)
Theorem generate_recommendations_nil_iff (format_1f : Q -> string)
  (cv : CV.t) (job : Job.t) (a : MatchAnalysis.t) :
  MatchingService._generate_recommendations format_1f cv job a = [] <->
  items (MatchAnalysis.missing_skills a) = []
  /\ MatchAnalysis.experience_gap_years a <= 0
  /\ (items (CV.education cv) = [] \/ uncovered_education cv job = []).
Proof.
  unfold MatchingService._generate_recommendations.
  rewrite edu_line_uncovered.
  destruct (MatchAnalysis.missing_skills a) as [[|x l]|]; cbn [items];
    (destruct (Qle_bool (MatchAnalysis.experience_gap_years a) 0) eqn:Eg;
     [apply Qle_bool_iff in Eg | apply Qle_bool_false in Eg]);
     cbn [negb app];
    destruct (items (CV.education cv)) as [|e es];
    destruct (uncovered_education cv job) as [|m ms];
    split; try discriminate; try tauto;
    try (intros (H1 & H2 & H3); try discriminate;
         try (exfalso; lra); destruct H3; discriminate);
    try (intros _; repeat split; auto; lra).
Qed.

(** ** Validation *)

Lemma validate_cv_eq (cv : CV.t) :
  ValidationService.validate_cv cv =
  ((if blank (CV.raw_text cv) then ["CV must contain text content"] else [])
   ++ (if String.eqb (CV.filename cv) ""
       then ["CV must have a filename"] else []))%list.
Proof.
  unfold ValidationService.validate_cv.
  rewrite strip_truthy, negb_involutive.
  destruct (blank (CV.raw_text cv)), (CV.filename cv); reflexivity.
Qed.

Lemma validate_job_eq (job : Job.t) :
  ValidationService.validate_job job =
  ((if blank (Job.title job) then ["Job must have a title"] else [])
   ++ (if blank (Job.description job)
       then ["Job must have a description"] else [])
   ++ (if (Job.min_experience_years job <? 0)%Z
       then ["Minimum experience years cannot be negative"] else []))%list.
Proof.
  unfold ValidationService.validate_job.
  rewrite !strip_truthy, !negb_involutive.
  destruct (blank (Job.title job)), (blank (Job.description job)),
    (Job.min_experience_years job <? 0)%Z; reflexivity.
Qed.

Lemma validate_match_request_eq (cv_id job_id : string) :
  ValidationService.validate_match_request cv_id job_id =
  ((if blank cv_id then ["CV ID is required"] else [])
   ++ (if blank job_id then ["Job ID is required"] else []))%list.
Proof.
  unfold ValidationService.validate_match_request.
  rewrite !blank_id_blank.
  destruct (blank cv_id), (blank job_id); reflexivity.
Qed.

(** X9: a validation returns no message exactly when its subject is valid:
    a CV with a text that is not blank and a filename that is not empty; a
    job with a title and a description that are not blank and a minimum
    experience that is not negative; a request with two identifiers that
    are not blank. *)
Theorem validation_empty_iff :
  (forall cv,
      ValidationService.validate_cv cv = [] <->
      blank (CV.raw_text cv) = false /\ CV.filename cv <> "")
  /\ (forall job,
         ValidationService.validate_job job = [] <->
         blank (Job.title job) = false
         /\ blank (Job.description job) = false
         /\ (0 <= Job.min_experience_years job)%Z)
  /\ (forall cv_id job_id,
         ValidationService.validate_match_request cv_id job_id = [] <->
         blank cv_id = false /\ blank job_id = false).
Proof.
  split; [|split].
  - intros cv. rewrite validate_cv_eq.
    destruct (blank (CV.raw_text cv));
      destruct (String.eqb_spec (CV.filename cv) "");
      split; try discriminate; try tauto;
      intros [H1 H2]; try discriminate; contradiction.
  - intros job. rewrite validate_job_eq.
    destruct (blank (Job.title job)), (blank (Job.description job));
      destruct (Z.ltb_spec (Job.min_experience_years job) 0);
      split; try discriminate; try (intros _; repeat split; lia);
      intros (H1 & H2 & H3); try discriminate; lia.
  - intros cv_id job_id. rewrite validate_match_request_eq.
    destruct (blank cv_id), (blank job_id);
      split; try discriminate; try tauto;
      intros [H1 H2]; discriminate.
Qed.

(** ** Converters: what a conversion keeps and how it fails *)

Lemma bind_ok {A B : Type} (m : result A) (f : A -> result B) (b : B) :
  bind m f = Ok b -> exists a, m = Ok a /\ f a = Ok b.
Proof. destruct m as [a|e]; cbn; [eauto | discriminate]. Qed.

Lemma bind_raise {A B : Type} (m : result A) (f : A -> result B) (e : exn) :
  bind m f = Raise e ->
  m = Raise e \/ exists a, m = Ok a /\ f a = Raise e.
Proof. destruct m as [a|e']; cbn; [eauto | intros [= ->]; auto]. Qed.

Ltac bind_ok_in H :=
  let a := fresh "v" in
  let E := fresh "E" in
  apply bind_ok in H as (a & E & H).

Lemma get_raises (v : pyval) (k : string) (default : pyval) (e : exn) :
  PyVal.get v k default = Raise e -> attribute_error e.
Proof.
  destruct v; cbn; try discriminate; intros [= <-]; eexists; reflexivity.
Qed.

Lemma lower_raises (v : pyval) (e : exn) :
  PyVal.lower v = Raise e -> attribute_error e.
Proof.
  destruct v; cbn; try discriminate; intros [= <-]; eexists; reflexivity.
Qed.

Lemma valid_level_named (s : string) :
  Py.str_in s Converters.valid_levels = true ->
  exists l, SkillLevelEnum.of_value s = Ok l /\ SkillLevelEnum.value l = s.
Proof.
  unfold Py.str_in, Converters.valid_levels. cbn [existsb].
  intros H. repeat (apply orb_true_iff in H as [H|H]);
    try discriminate; apply String.eqb_eq in H; subst s.
  - exists BEGINNER. split; reflexivity.
  - exists INTERMEDIATE. split; reflexivity.
  - exists ADVANCED. split; reflexivity.
  - exists EXPERT. split; reflexivity.
Qed.

Lemma level_of_valid (record : pyval) (key s : string) :
  Converters.level_of record key = Ok s ->
  exists l, SkillLevelEnum.of_value s = Ok l.
Proof.
  unfold Converters.level_of. intros H.
  bind_ok_in H. bind_ok_in H.
  destruct (Py.str_in v0 Converters.valid_levels) eqn:Ev;
    cbn [negb] in H; injection H as <-.
  - destruct (valid_level_named v0 Ev) as (l & Hl & _). eauto.
  - exists BEGINNER. reflexivity.
Qed.

Lemma level_of_raises (record : pyval) (key : string) (e : exn) :
  Converters.level_of record key = Raise e -> attribute_error e.
Proof.
  unfold Converters.level_of. intros H.
  apply bind_raise in H as [H|(v & _ & H)]; [now apply get_raises in H|].
  apply bind_raise in H as [H|(s & _ & H)]; [now apply lower_raises in H|].
  discriminate.
Qed.

Ltac raise_cases H :=
  repeat
    (apply bind_raise in H as [H|(? & ? & H)];
     [ first [ now apply get_raises in H
             | now apply lower_raises in H
             | now apply level_of_raises in H
             | idtac ] | ]).

(** A loop body fails with [AttributeError] only: the levels it hands to
    [SkillLevel(...)] are valid by then. *)
Lemma skill_of_raises (v : pyval) (e : exn) :
  Converters.skill_of v = Raise e -> attribute_error e.
Proof.
  unfold Converters.skill_of. intros H.
  apply bind_raise in H as [H|(s & Hs & H)];
    [now apply level_of_raises in H|].
  apply bind_raise in H as [H|(n & _ & H)]; [now apply get_raises in H|].
  destruct (level_of_valid _ _ _ Hs) as (l & Hl). rewrite Hl in H.
  cbn [bind] in H. raise_cases H. discriminate.
Qed.

Lemma requirement_of_raises (preferred : bool) (v : pyval) (e : exn) :
  Converters.requirement_of preferred v = Raise e -> attribute_error e.
Proof.
  unfold Converters.requirement_of. intros H.
  apply bind_raise in H as [H|(s & Hs & H)];
    [now apply level_of_raises in H|].
  apply bind_raise in H as [H|(n & _ & H)]; [now apply get_raises in H|].
  destruct (level_of_valid _ _ _ Hs) as (l & Hl). rewrite Hl in H.
  cbn [bind] in H. destruct preferred; raise_cases H; discriminate.
Qed.

Lemma optional_level_raises (v : pyval) (e : exn) :
  Converters.optional_level v = Raise e -> attribute_error e.
Proof.
  unfold Converters.optional_level. destruct (PyVal.truth v); [|discriminate].
  intros H.
  apply bind_raise in H as [H|(s & Hs & H)]; [now apply lower_raises in H|].
  destruct (Py.str_in s Converters.valid_levels) eqn:Ev; [|discriminate].
  rewrite Hs in H. cbn [bind] in H.
  destruct (valid_level_named s Ev) as (l & Hl & _). rewrite Hl in H.
  discriminate.
Qed.

Lemma skill_match_of_raises (v : pyval) (e : exn) :
  Converters.skill_match_of v = Raise e -> attribute_error e.
Proof.
  unfold Converters.skill_match_of. intros H.
  apply bind_raise in H as [H|(c & _ & H)]; [now apply get_raises in H|].
  apply bind_raise in H as [H|(r & _ & H)]; [now apply get_raises in H|].
  apply bind_raise in H as [H|(cl & _ & H)];
    [now apply optional_level_raises in H|].
  apply bind_raise in H as [H|(rl & _ & H)];
    [now apply optional_level_raises in H|].
  raise_cases H. discriminate.
Qed.

Lemma education_of_raises (v : pyval) (e : exn) :
  Converters.education_of v = Raise e -> attribute_error e.
Proof.
  unfold Converters.education_of. intros H. raise_cases H. discriminate.
Qed.

Lemma experience_of_raises (v : pyval) (e : exn) :
  Converters.experience_of v = Raise e -> attribute_error e.
Proof.
  unfold Converters.experience_of. intros H. raise_cases H. discriminate.
Qed.

Lemma attribute_error_not_handled (e : exn) :
  attribute_error e -> Converters.is_value_or_type_error e = false.
Proof. intros [msg ->]. reflexivity. Qed.

(** When the body fails with [AttributeError] only, the handler of the loop
    never fires: the loop behaves as the loop without handler. *)
Lemma for_try_for_each {A : Type} (body : pyval -> result A)
  (items : list pyval) (acc : list A) :
  (forall x e, body x = Raise e -> attribute_error e) ->
  Converters.for_try body items acc = Converters.for_each body items acc.
Proof.
  intros Hbody. revert acc.
  induction items as [|x rest IH]; intros acc; cbn; [reflexivity|].
  destruct (body x) as [a|e] eqn:Ex; cbn [bind]; [apply IH|].
  now rewrite (attribute_error_not_handled e (Hbody x e Ex)).
Qed.

Lemma for_each_ok {A : Type} (body : pyval -> result A)
  (items : list pyval) (acc out : list A) :
  Converters.for_each body items acc = Ok out ->
  exists outs,
    out = (acc ++ outs)%list
    /\ Forall2 (fun x a => body x = Ok a) items outs.
Proof.
  revert acc. induction items as [|x rest IH]; intros acc; cbn.
  - intros [= <-]. exists []. split; [now rewrite app_nil_r | constructor].
  - intros H. bind_ok_in H.
    destruct (IH _ H) as (outs & -> & Hall).
    exists (v :: outs). split; [now rewrite <- app_assoc|].
    now constructor.
Qed.

Lemma for_each_raises {A : Type} (body : pyval -> result A)
  (items : list pyval) (acc : list A) (e : exn) :
  Converters.for_each body items acc = Raise e ->
  exists x, In x items /\ body x = Raise e.
Proof.
  revert acc. induction items as [|x rest IH]; intros acc; cbn;
    [discriminate|].
  intros H. apply bind_raise in H as [H|(a & _ & H)].
  - exists x. auto.
  - destruct (IH _ H) as (y & Hy & Hr). exists y. auto.
Qed.

Lemma for_each_all_ok {A : Type} (body : pyval -> result A)
  (items : list pyval) (acc : list A) :
  Forall (fun x => exists a, body x = Ok a) items ->
  exists outs,
    Converters.for_each body items acc = Ok (acc ++ outs)%list
    /\ Forall2 (fun x a => body x = Ok a) items outs.
Proof.
  intros Hall. revert acc.
  induction Hall as [|x rest [a Ha] _ IH]; intros acc; cbn.
  - exists []. split; [now rewrite app_nil_r | constructor].
  - rewrite Ha. cbn [bind].
    destruct (IH (acc ++ [a])%list) as (outs & -> & Hf).
    exists (a :: outs). split; [now rewrite <- app_assoc|].
    now constructor.
Qed.

Lemma iter_raises (v : pyval) (e : exn) :
  PyVal.iter v = Raise e -> iterable v = false /\ exists msg, e = TypeError msg.
Proof.
  destruct v; cbn; try discriminate; intros [= <-];
    (split; [reflexivity | eexists; reflexivity]).
Qed.

Lemma get_ok (v : pyval) (k : string) (default r : pyval) :
  PyVal.get v k default = Ok r ->
  exists d, v = PDict d /\ r = PyVal.dict_get d k default.
Proof.
  destruct v; cbn; try discriminate. intros [= <-]. eauto.
Qed.

Ltac cv_steps H :=
  unfold Converters.convert_to_cv_entity in H;
  apply bind_ok in H as (?v1 & ?Hg1 & H);
  apply bind_ok in H as (?sk & ?Hi1 & H);
  apply bind_ok in H as (?skills & ?Hl1 & H);
  apply bind_ok in H as (?v2 & ?Hg2 & H);
  apply bind_ok in H as (?ed & ?Hi2 & H);
  apply bind_ok in H as (?education & ?Hl2 & H);
  apply bind_ok in H as (?v3 & ?Hg3 & H);
  apply bind_ok in H as (?ex & ?Hi3 & H);
  apply bind_ok in H as (?experience & ?Hl3 & H);
  apply bind_ok in H as (?name & ?Hn1 & H);
  apply bind_ok in H as (?email & ?Hn2 & H);
  apply bind_ok in H as (?phone & ?Hn3 & H);
  apply bind_ok in H as (?location & ?Hn4 & H);
  apply bind_ok in H as (?certifications & ?Hn5 & H);
  apply bind_ok in H as (?languages & ?Hn6 & H);
  injection H as H.

(** X10: a conversion to a CV that succeeds has dropped nothing.  The CV has
    one skill, one education and one experience for each entry of the
    corresponding list of the payload, in the same order, each one the
    result of converting that entry: the handler that would skip an entry
    never fires, because an entry can only fail with [AttributeError]. *)
Theorem convert_cv_keeps_every_entry
  (data : pyval) (raw_text : string) (now : datetime) (cv : Dyn.CV.t) :
  Converters.convert_to_cv_entity data raw_text now = Ok cv ->
  exists d sk ed ex,
    data = PDict d
    /\ PyVal.iter (PyVal.dict_get d "skills" (PList [])) = Ok sk
    /\ PyVal.iter (PyVal.dict_get d "education" (PList [])) = Ok ed
    /\ PyVal.iter (PyVal.dict_get d "experience" (PList [])) = Ok ex
    /\ Forall2 (fun x s => Converters.skill_of x = Ok s)
         sk (Dyn.CV.skills cv)
    /\ Forall2 (fun x e => Converters.education_of x = Ok e)
         ed (Dyn.CV.education cv)
    /\ Forall2 (fun x e => Converters.experience_of x = Ok e)
         ex (Dyn.CV.experience cv)
    /\ List.length (Dyn.CV.skills cv) = List.length sk
    /\ List.length (Dyn.CV.education cv) = List.length ed
    /\ List.length (Dyn.CV.experience cv) = List.length ex.
Proof.
  intros H. cv_steps H.
  destruct (get_ok _ _ _ _ Hg1) as (d & -> & ->).
  cbn [PyVal.get] in Hg2, Hg3. injection Hg2 as <-. injection Hg3 as <-.
  rewrite (for_try_for_each _ _ _ skill_of_raises) in Hl1.
  destruct (for_each_ok _ _ _ _ Hl1) as (o1 & -> & F1).
  destruct (for_each_ok _ _ _ _ Hl2) as (o2 & -> & F2).
  destruct (for_each_ok _ _ _ _ Hl3) as (o3 & -> & F3).
  subst cv. cbn [Dyn.CV.post_init Dyn.CV.skills Dyn.CV.education
                 Dyn.CV.experience app].
  exists d, sk, ed, ex.
  repeat (split; [first [reflexivity | assumption]|]).
  split; [symmetry; exact (Forall2_length F1)|].
  split; symmetry; [exact (Forall2_length F2) | exact (Forall2_length F3)].
Qed.

Lemma convert_cv_keeps_every_entry_witness :
  exists cv,
    Converters.convert_to_cv_entity payload_ninja "raw text" 0%Z = Ok cv
    /\ List.length (Dyn.CV.skills cv) = 3%nat.
Proof.
  eexists. split; [reflexivity|].
  destruct (convert_cv_keeps_every_entry payload_ninja "raw text" 0%Z _
              eq_refl)
    as (d & sk & ed & ex & Hd & Hsk & _ & _ & _ & _ & _ & Hlen & _).
  injection Hd as <-. injection Hsk as <-. exact Hlen.
Defined.

(** X11: a converted CV carries the raw text it was given and the time of
    the conversion, has no identifier and an empty filename (its caller
    fills them), and its certifications and languages are never [None],
    also when the payload has [null] there. *)
Theorem convert_cv_fields
  (data : pyval) (raw_text : string) (now : datetime) (cv : Dyn.CV.t) :
  Converters.convert_to_cv_entity data raw_text now = Ok cv ->
  Dyn.CV.raw_text cv = raw_text
  /\ Dyn.CV.id cv = None
  /\ Dyn.CV.filename cv = ""
  /\ Dyn.CV.created_at cv = Some now
  /\ Dyn.CV.updated_at cv = None
  /\ Dyn.CV.certifications cv <> PNone
  /\ Dyn.CV.languages cv <> PNone
  /\ exists d,
       data = PDict d
       /\ Dyn.CV.certifications cv
          = Dyn.or_empty (PyVal.dict_get d "certifications" (PList []))
       /\ Dyn.CV.name cv = PyVal.dict_get d "name" PNone.
Proof.
  intros H. cv_steps H.
  destruct (get_ok _ _ _ _ Hg1) as (d & -> & ->).
  cbn [PyVal.get] in Hn1, Hn5, Hn6.
  injection Hn1 as <-. injection Hn5 as <-. injection Hn6 as <-.
  subst cv. cbn.
  repeat (split; [reflexivity|]).
  split; [|split].
  - destruct (PyVal.dict_get d "certifications" (PList [])); discriminate.
  - destruct (PyVal.dict_get d "languages" (PList [])); discriminate.
  - exists d. repeat split.
Qed.

Lemma convert_cv_fields_witness :
  exists cv,
    Converters.convert_to_cv_entity
      (PDict [("certifications", PNone)]) "raw text" 7%Z = Ok cv
    /\ Dyn.CV.raw_text cv = "raw text"
    /\ Dyn.CV.certifications cv <> PNone.
Proof.
  eexists. split; [reflexivity|].
  destruct (convert_cv_fields (PDict [("certifications", PNone)])
              "raw text" 7%Z _ eq_refl)
    as (Hraw & _ & _ & _ & _ & Hcert & _).
  split; [exact Hraw | exact Hcert].
Defined.

Ltac job_steps H :=
  unfold Converters.convert_to_job_entity in H;
  apply bind_ok in H as (?v1 & ?Hg1 & H);
  apply bind_ok in H as (?rq & ?Hi1 & H);
  apply bind_ok in H as (?required & ?Hl1 & H);
  apply bind_ok in H as (?v2 & ?Hg2 & H);
  apply bind_ok in H as (?pf & ?Hi2 & H);
  apply bind_ok in H as (?preferred & ?Hl2 & H);
  apply bind_ok in H as (?title & ?Hn1 & H);
  apply bind_ok in H as (?company & ?Hn2 & H);
  apply bind_ok in H as (?min_years & ?Hn3 & H);
  apply bind_ok in H as (?req_edu & ?Hn4 & H);
  apply bind_ok in H as (?req_cert & ?Hn5 & H);
  apply bind_ok in H as (?location & ?Hn6 & H);
  apply bind_ok in H as (?salary & ?Hn7 & H);
  injection H as H.

Lemma requirement_of_preferred (v : pyval) (r : Dyn.JobRequirement.t) :
  Converters.requirement_of true v = Ok r ->
  Dyn.JobRequirement.is_mandatory r = PBool false
  /\ Dyn.JobRequirement.weight r = entry_value "weight" (PFloat (1 # 2)) v.
Proof.
  unfold Converters.requirement_of. intros H.
  apply bind_ok in H as (s & Hs & H).
  apply bind_ok in H as (n & Hn & H).
  apply bind_ok in H as (l & Hl & H).
  cbn [bind] in H.
  apply bind_ok in H as (w & Hw & H).
  injection H as <-. cbn.
  destruct (get_ok _ _ _ _ Hw) as (d & -> & ->). split; reflexivity.
Qed.

Lemma requirement_of_required (v : pyval) (r : Dyn.JobRequirement.t) :
  Converters.requirement_of false v = Ok r ->
  Dyn.JobRequirement.is_mandatory r
  = entry_value "is_mandatory" (PBool true) v
  /\ Dyn.JobRequirement.weight r = entry_value "weight" (PFloat 1) v.
Proof.
  unfold Converters.requirement_of. intros H.
  apply bind_ok in H as (s & Hs & H).
  apply bind_ok in H as (n & Hn & H).
  apply bind_ok in H as (l & Hl & H).
  apply bind_ok in H as (m & Hm & H).
  apply bind_ok in H as (w & Hw & H).
  injection H as <-. cbn.
  destruct (get_ok _ _ _ _ Hw) as (d & -> & ->).
  cbn [PyVal.get] in Hm. injection Hm as <-. split; reflexivity.
Qed.

(** X12: a conversion to a Job that succeeds has dropped no requirement;
    the job keeps the description it was given; a preferred skill is never
    mandatory, whatever the payload says, and its weight is 0.5 unless the
    payload gives one; a required skill is mandatory with weight 1 unless
    the payload says otherwise. *)
Theorem convert_job_requirements
  (data : pyval) (description : string) (now : datetime) (job : Dyn.Job.t) :
  Converters.convert_to_job_entity data description now = Ok job ->
  Dyn.Job.description job = description
  /\ Dyn.Job.id job = None
  /\ exists d rq pf,
       data = PDict d
       /\ PyVal.iter (PyVal.dict_get d "required_skills" (PList [])) = Ok rq
       /\ PyVal.iter (PyVal.dict_get d "preferred_skills" (PList [])) = Ok pf
       /\ Forall2
            (fun x r =>
               Converters.requirement_of false x = Ok r
               /\ Dyn.JobRequirement.is_mandatory r
                  = entry_value "is_mandatory" (PBool true) x
               /\ Dyn.JobRequirement.weight r
                  = entry_value "weight" (PFloat 1) x)
            rq (Dyn.Job.required_skills job)
       /\ Forall2
            (fun x r =>
               Converters.requirement_of true x = Ok r
               /\ Dyn.JobRequirement.is_mandatory r = PBool false
               /\ Dyn.JobRequirement.weight r
                  = entry_value "weight" (PFloat (1 # 2)) x)
            pf (Dyn.Job.preferred_skills job).
Proof.
  intros H. job_steps H.
  destruct (get_ok _ _ _ _ Hg1) as (d & -> & ->).
  cbn [PyVal.get] in Hg2. injection Hg2 as <-.
  rewrite (for_try_for_each _ _ _ (requirement_of_raises false)) in Hl1.
  rewrite (for_try_for_each _ _ _ (requirement_of_raises true)) in Hl2.
  destruct (for_each_ok _ _ _ _ Hl1) as (o1 & -> & F1).
  destruct (for_each_ok _ _ _ _ Hl2) as (o2 & -> & F2).
  subst job. cbn [Dyn.Job.post_init Dyn.Job.description Dyn.Job.id
                  Dyn.Job.required_skills Dyn.Job.preferred_skills app].
  split; [reflexivity|]. split; [reflexivity|].
  exists d, rq, pf. repeat (split; [first [reflexivity | assumption]|]).
  split.
  - eapply Forall2_impl; [|exact F1]. cbn. intros x r Hr.
    split; [exact Hr | now apply requirement_of_required].
  - eapply Forall2_impl; [|exact F2]. cbn. intros x r Hr.
    split; [exact Hr | now apply requirement_of_preferred].
Qed.

Lemma convert_job_requirements_witness :
  exists job,
    Converters.convert_to_job_entity
      (PDict [("preferred_skills",
               PList [PDict [("skill", PStr "Docker");
                             ("is_mandatory", PBool true)]])])
      "description" 0%Z = Ok job
    /\ Dyn.Job.description job = "description"
    /\ Forall (fun r => Dyn.JobRequirement.is_mandatory r = PBool false)
         (Dyn.Job.preferred_skills job).
Proof.
  eexists. split; [reflexivity|].
  destruct (convert_job_requirements
              (PDict [("preferred_skills",
                       PList [PDict [("skill", PStr "Docker");
                                     ("is_mandatory", PBool true)]])])
              "description" 0%Z _ eq_refl)
    as (Hd & _ & d & rq & pf & _ & _ & _ & _ & F).
  split; [exact Hd|].
  clear - F. induction F as [|x r xs rs (_ & Hm & _) _ IH]; constructor;
    assumption.
Defined.

Ltac match_steps H :=
  unfold Converters.convert_to_match_analysis in H;
  apply bind_ok in H as (?v1 & ?Hg1 & H);
  apply bind_ok in H as (?sm & ?Hi1 & H);
  apply bind_ok in H as (?matches & ?Hl1 & H);
  apply bind_ok in H as (?overall & ?Hn1 & H);
  apply bind_ok in H as (?skills_sc & ?Hn2 & H);
  apply bind_ok in H as (?exp_sc & ?Hn3 & H);
  apply bind_ok in H as (?edu_sc & ?Hn4 & H);
  apply bind_ok in H as (?missing & ?Hn5 & H);
  apply bind_ok in H as (?matching & ?Hn6 & H);
  apply bind_ok in H as (?gap & ?Hn7 & H);
  apply bind_ok in H as (?recs & ?Hn8 & H);
  apply bind_ok in H as (?tips & ?Hn9 & H);
  injection H as H.

Lemma match_analysis_of_payload
  (data : pyval) (cv_id job_id : string) (now : datetime)
  (a : Dyn.MatchAnalysis.t) :
  Converters.convert_to_match_analysis data cv_id job_id now = Ok a ->
  Dyn.MatchAnalysis.cv_id a = cv_id
  /\ Dyn.MatchAnalysis.job_id a = job_id
  /\ Dyn.MatchAnalysis.analysis_date a = Some now
  /\ Dyn.MatchAnalysis.ai_model_used a = Some "gemini-1.5-flash"
  /\ Dyn.MatchAnalysis.missing_skills a <> PNone
  /\ Dyn.MatchAnalysis.matching_skills a <> PNone
  /\ Dyn.MatchAnalysis.recommendations a <> PNone
  /\ Dyn.MatchAnalysis.interview_tips a <> PNone
  /\ exists d sm,
       data = PDict d
       /\ Dyn.MatchAnalysis.overall_score a
          = PyVal.dict_get d "overall_score" (PFloat 0)
       /\ PyVal.iter (PyVal.dict_get d "skill_matches" (PList [])) = Ok sm
       /\ Forall2 (fun x m => Converters.skill_match_of x = Ok m)
            sm (Dyn.MatchAnalysis.skill_matches a).
Proof.
  intros H. match_steps H.
  destruct (get_ok _ _ _ _ Hg1) as (d & -> & ->).
  cbn [PyVal.get] in Hn1, Hn5, Hn6, Hn8, Hn9.
  injection Hn1 as <-. injection Hn5 as <-. injection Hn6 as <-.
  injection Hn8 as <-. injection Hn9 as <-.
  rewrite (for_try_for_each _ _ _ skill_match_of_raises) in Hl1.
  destruct (for_each_ok _ _ _ _ Hl1) as (o1 & -> & F1).
  subst a. cbn.
  repeat (split; [reflexivity|]).
  split; [destruct (PyVal.dict_get d "missing_skills" (PList []));
          discriminate|].
  split; [destruct (PyVal.dict_get d "matching_skills" (PList []));
          discriminate|].
  split; [destruct (PyVal.dict_get d "recommendations" (PList []));
          discriminate|].
  split; [destruct (PyVal.dict_get d "interview_tips" (PList []));
          discriminate|].
  exists d, sm. repeat split; assumption.
Qed.



Lemma convert_cv_raises_cases
  (data : pyval) (raw_text : string) (now : datetime) (e : exn) :
  Converters.convert_to_cv_entity data raw_text now = Raise e ->
  attribute_error e
  \/ exists d key msg,
       data = PDict d
       /\ In key ["skills"; "education"; "experience"]
       /\ iterable (PyVal.dict_get d key (PList [])) = false
       /\ e = TypeError msg.
Proof.
  unfold Converters.convert_to_cv_entity. intros H.
  apply bind_raise in H as [H|(v1 & E1 & H)];
    [left; now apply get_raises in H|].
  destruct (get_ok _ _ _ _ E1) as (d & -> & ->).
  cbn [PyVal.get] in H.
  apply bind_raise in H as [H|(sk & _ & H)].
  { right. apply iter_raises in H as (Hi & msg & ->).
    exists d, "skills", msg. cbn. tauto. }
  apply bind_raise in H as [H|(skills & _ & H)].
  { left. rewrite (for_try_for_each _ _ _ skill_of_raises) in H.
    apply for_each_raises in H as (x & _ & H).
    now apply skill_of_raises in H. }
  cbn [bind] in H.
  apply bind_raise in H as [H|(ed & _ & H)].
  { right. apply iter_raises in H as (Hi & msg & ->).
    exists d, "education", msg. cbn. tauto. }
  apply bind_raise in H as [H|(education & _ & H)].
  { left. apply for_each_raises in H as (x & _ & H).
    now apply education_of_raises in H. }
  cbn [bind] in H.
  apply bind_raise in H as [H|(ex & _ & H)].
  { right. apply iter_raises in H as (Hi & msg & ->).
    exists d, "experience", msg. cbn. tauto. }
  apply bind_raise in H as [H|(experience & _ & H)].
  { left. apply for_each_raises in H as (x & _ & H).
    now apply experience_of_raises in H. }
  cbn in H. discriminate.
Qed.

(** X14: a conversion to a CV fails in two ways only.  With [TypeError]
    when the value under "skills", "education" or "experience" cannot be
    iterated ([null], a number, a boolean); with [AttributeError] when the
    payload or an entry is not an object or a skill level is not a text.
    It never fails with [ValueError]. *)
Theorem convert_cv_failure
  (data : pyval) (raw_text : string) (now : datetime) (e : exn) :
  Converters.convert_to_cv_entity data raw_text now = Raise e ->
  attribute_error e
  \/ exists d key msg,
       data = PDict d
       /\ In key ["skills"; "education"; "experience"]
       /\ iterable (PyVal.dict_get d key (PList [])) = false
       /\ e = TypeError msg.
Proof. apply convert_cv_raises_cases. Qed.

Lemma convert_cv_failure_witness :
  attribute_error (AttributeError "'NoneType' object has no attribute 'lower'")
  \/ exists d key msg,
       payload_null_level = PDict d
       /\ In key ["skills"; "education"; "experience"]
       /\ iterable (PyVal.dict_get d key (PList [])) = false
       /\ AttributeError "'NoneType' object has no attribute 'lower'"
          = TypeError msg.
Proof.
  apply (convert_cv_failure payload_null_level "raw text" 0%Z).
  reflexivity.
Defined.



Lemma skill_of_fields (x : pyval) (s : Dyn.Skill.t) :
  Converters.skill_of x = Ok s ->
  Dyn.Skill.name s = entry_value "name" (PStr "") x
  /\ Dyn.Skill.years_experience s = entry_value "years_experience" PNone x
  /\ Dyn.Skill.category s = entry_value "category" PNone x.
Proof.
  unfold Converters.skill_of. intros H.
  apply bind_ok in H as (l & Hl & H).
  apply bind_ok in H as (n & Hn & H).
  apply bind_ok in H as (lv & Hlv & H).
  apply bind_ok in H as (y & Hy & H).
  apply bind_ok in H as (c & Hc & H).
  injection H as <-.
  destruct (get_ok _ _ _ _ Hn) as (d & -> & ->).
  cbn [PyVal.get] in Hy, Hc. injection Hy as <-. injection Hc as <-.
  repeat split.
Qed.

Lemma is_object_bodies (x : pyval) :
  is_object x = true ->
  (exists e, Converters.education_of x = Ok e)
  /\ (exists e, Converters.experience_of x = Ok e).
Proof.
  destruct x; try discriminate. intros _. split; eexists; reflexivity.
Qed.

Lemma object_with_text_skill (x : pyval) :
  object_with_text "level" x = true ->
  exists s,
    Converters.skill_of x = Ok s
    /\ Dyn.Skill.level s = entry_level "level" x.
Proof.
  destruct x as [| | | | |l|d]; try discriminate. cbn.
  destruct (PyVal.dict_get d "level" (PStr "beginner")) as [| | | |s| |]
    eqn:Eg; try discriminate.
  intros _. exact (skill_of_text_level d s Eg).
Qed.

(** X16: a payload that follows the schema always converts.  When the
    skills, education and experience of the payload are lists (or are
    absent) whose entries are objects, and the level of each skill is a
    text or is absent, the conversion returns a CV that has the skills of
    the payload in the same order, each with the name of its entry and with
    the level its text names without regard to case ([BEGINNER] when it
    names none), and as many education and experience entries as the
    payload. *)
Theorem convert_cv_well_formed (d : list (string * pyval))
  (raw_text : string) (now : datetime) (sk ed ex : list pyval) :
  PyVal.dict_get d "skills" (PList []) = PList sk ->
  PyVal.dict_get d "education" (PList []) = PList ed ->
  PyVal.dict_get d "experience" (PList []) = PList ex ->
  forallb (object_with_text "level") sk = true ->
  forallb is_object ed = true ->
  forallb is_object ex = true ->
  exists cv,
    Converters.convert_to_cv_entity (PDict d) raw_text now = Ok cv
    /\ map Dyn.Skill.level (Dyn.CV.skills cv)
       = map (entry_level "level") sk
    /\ map Dyn.Skill.name (Dyn.CV.skills cv)
       = map (entry_value "name" (PStr "")) sk
    /\ List.length (Dyn.CV.education cv) = List.length ed
    /\ List.length (Dyn.CV.experience cv) = List.length ex.
Proof.
  intros Hsk Hed Hex Wsk Wed Wex.
  unfold Converters.convert_to_cv_entity. cbn [PyVal.get bind].
  rewrite Hsk, Hed, Hex. cbn [PyVal.iter bind].
  rewrite (for_try_for_each _ _ _ skill_of_raises).
  rewrite forallb_forall in Wsk, Wed, Wex.
  destruct (for_each_all_ok Converters.skill_of sk []) as (o1 & -> & F1).
  { apply Forall_forall. intros x Hx.
    destruct (object_with_text_skill x (Wsk x Hx)) as (s & Hs & _). eauto. }
  destruct (for_each_all_ok Converters.education_of ed []) as (o2 & -> & F2).
  { apply Forall_forall. intros x Hx.
    exact (proj1 (is_object_bodies x (Wed x Hx))). }
  destruct (for_each_all_ok Converters.experience_of ex []) as (o3 & -> & F3).
  { apply Forall_forall. intros x Hx.
    exact (proj2 (is_object_bodies x (Wex x Hx))). }
  cbn [bind app]. eexists. split; [reflexivity|].
  cbn [Dyn.CV.post_init Dyn.CV.skills Dyn.CV.education Dyn.CV.experience].
  split; [|split; [|split]].
  - clear - F1 Wsk. induction F1 as [|x s xs ss Hs _ IH]; [reflexivity|].
    cbn [map]. f_equal.
    + destruct (object_with_text_skill x (Wsk x (or_introl eq_refl)))
        as (s' & Hs' & Hl).
      rewrite Hs in Hs'. injection Hs' as <-. exact Hl.
    + apply IH. intros y Hy. apply Wsk. now right.
  - clear - F1. induction F1 as [|x s xs ss Hs _ IH]; [reflexivity|].
    cbn [map]. f_equal; [|exact IH].
    exact (proj1 (skill_of_fields x s Hs)).
  - symmetry. exact (Forall2_length F2).
  - symmetry. exact (Forall2_length F3).
Qed.

Lemma convert_cv_well_formed_witness :
  exists cv,
    Converters.convert_to_cv_entity payload_ninja "raw text" 0%Z = Ok cv
    /\ map Dyn.Skill.level (Dyn.CV.skills cv) = [BEGINNER; EXPERT; BEGINNER].
Proof.
  destruct (convert_cv_well_formed
              [("skills",
                PList [skill_entry "Python" (PStr "ninja");
                       skill_entry "Go" (PStr "EXPERT");
                       PDict [("name", PStr "SQL")]])]
              "raw text" 0%Z _ [] [] eq_refl eq_refl eq_refl
              eq_refl eq_refl eq_refl)
    as (cv & Hcv & Hlevels & _).
  exists cv. split; [exact Hcv | exact Hlevels].
Defined.

(** ** The AI service: calls, failures and results *)

Section ServiceRuns.

Variable model_generate_content : string -> result string.
Variable json_loads : string -> pyval + string.
Variable create_cv_extraction_prompt : string -> string.
Variable create_job_analysis_prompt : string -> string.
Variable create_matching_prompt :
  list string -> Q -> list string -> Z -> string.

Ltac finish_run :=
  cbn; split;
  [ first [ left; reflexivity | right; eexists; reflexivity ]
  | intros ? Hr; first [ discriminate Hr
                       | injection Hr as <-; eexists; reflexivity ] ].

Ltac simpl_run :=
  cbn -[Py.strip Py.truthy GeminiAIService._extract_json_from_response
        Converters.convert_to_cv_entity Converters.convert_to_job_entity
        Converters.convert_to_match_analysis GeminiAIService.or_unknown
        CV.skill_names CV.total_experience_years
        Job.all_required_skill_names String.append].

Ltac destruct_scrutinee :=
  match goal with
  | |- context [model_generate_content ?p] =>
      destruct (model_generate_content p) as [?|[?|?|?|?|?]]
  | |- context [Py.truthy (Py.strip ?r)] =>
      destruct (Py.truthy (Py.strip r))
  | |- context [GeminiAIService._extract_json_from_response ?r] =>
      destruct (GeminiAIService._extract_json_from_response r)
        as [?|[?|?|?|?|?]]
  | |- context [json_loads ?p] => destruct (json_loads p) as [?|?]
  | |- context [Converters.convert_to_cv_entity ?a ?b ?c] =>
      destruct (Converters.convert_to_cv_entity a b c) as [?|[?|?|?|?|?]]
  | |- context [Converters.convert_to_job_entity ?a ?b ?c] =>
      destruct (Converters.convert_to_job_entity a b c) as [?|[?|?|?|?|?]]
  | |- context [Converters.convert_to_match_analysis ?a ?b ?c ?d] =>
      destruct (Converters.convert_to_match_analysis a b c d)
        as [?|[?|?|?|?|?]] eqn:?
  end.

Ltac run_cases :=
  unfold GeminiAIService._generate_content, GeminiAIService.loads,
    GeminiAIService.call, GeminiAIService.catch, GeminiAIService.lift,
    GeminiAIService.raise, GeminiAIService.ret;
  repeat (simpl_run; destruct_scrutinee).


(** X18: when the model fails, each operation ends at once with an
    [AIServiceError] that wraps the failure twice, and nothing is parsed. *)
Theorem service_model_failure
  (raw_text description : string) (cv : CV.t) (job : Job.t)
  (now : datetime) (e : exn) :
  (model_generate_content (create_cv_extraction_prompt raw_text) = Raise e ->
   GeminiAIService.extract_cv_data model_generate_content json_loads
     create_cv_extraction_prompt raw_text now
   = ([GeminiAIService.Generate (create_cv_extraction_prompt raw_text)],
      Raise (AIServiceError
               ("Failed to extract CV data: Gemini API failed: "
                  ++ str_exn e))))
  /\ (model_generate_content (create_job_analysis_prompt description)
      = Raise e ->
      GeminiAIService.analyze_job_description model_generate_content
        json_loads create_job_analysis_prompt description now
      = ([GeminiAIService.Generate (create_job_analysis_prompt description)],
         Raise (AIServiceError
                  ("Failed to analyze job: Gemini API failed: "
                     ++ str_exn e))))
  /\ (let prompt :=
        create_matching_prompt
          (CV.skill_names cv) (CV.total_experience_years cv)
          (Job.all_required_skill_names job)
          (Job.min_experience_years job) in
      model_generate_content prompt = Raise e ->
      GeminiAIService.calculate_match_score model_generate_content
        json_loads create_matching_prompt cv job now
      = ([GeminiAIService.Generate prompt],
         Raise (AIServiceError
                  ("Failed to calculate match: Gemini API failed: "
                     ++ str_exn e)))).
Proof.
  unfold GeminiAIService.extract_cv_data,
    GeminiAIService.analyze_job_description,
    GeminiAIService.calculate_match_score,
    GeminiAIService._generate_content, GeminiAIService.call,
    GeminiAIService.catch.
  repeat split; cbv zeta; intros H; rewrite H; reflexivity.
Qed.

(** X19: when the response holds both braces and the text between them
    decodes, the outcome of [extract_cv_data] is the outcome of the
    converter on the decoded value: its CV, or an [AIServiceError] whose
    message starts with "Failed to extract CV data: " and goes on with the
    message of the converter's exception. *)
Theorem extract_cv_data_decoded
  (raw_text : string) (now : datetime) (response : string) (v : pyval) :
  model_generate_content (create_cv_extraction_prompt raw_text)
  = Ok response ->
  occurs "{" response = true -> occurs "}" response = true ->
  json_loads (object_text response) = inl v ->
  snd (GeminiAIService.extract_cv_data model_generate_content json_loads
         create_cv_extraction_prompt raw_text now) =
  match Converters.convert_to_cv_entity v raw_text now with
  | Ok cv => Ok cv
  | Raise e =>
      Raise (AIServiceError ("Failed to extract CV data: " ++ str_exn e))
  end.
Proof.
  intros Hgen Ho Hc Hl.
  pose proof (occurs_strip "{" eq_refl response) as Ho'.
  pose proof (occurs_strip "}" eq_refl response) as Hc'.
  rewrite Ho in Ho'. rewrite Hc in Hc'.
  unfold GeminiAIService.extract_cv_data,
    GeminiAIService._generate_content, GeminiAIService.call,
    GeminiAIService.catch.
  rewrite Hgen. cbn [GeminiAIService.io_bind].
  rewrite (occurs_truthy _ _ Ho'). cbn [negb].
  rewrite extract_json_from_response_spec, Ho', Hc', object_text_strip.
  cbn [andb]. unfold GeminiAIService.lift, GeminiAIService.loads,
    GeminiAIService.call.
  cbn [GeminiAIService.io_bind]. rewrite Hl.
  cbn [GeminiAIService.io_bind].
  destruct (Converters.convert_to_cv_entity v raw_text now) as [cv|e] eqn:Ec.
  - reflexivity.
  - destruct (convert_cv_raises_cases v raw_text now e Ec)
      as [[msg ->]|(d & key & msg & _ & _ & _ & ->)]; reflexivity.
Qed.

(** X20: a match analysis that [calculate_match_score] returns carries the
    identifier of the CV and of the job, "unknown" standing for an
    identifier that is absent or empty, and the name of the model. *)
Theorem calculate_match_score_ids
  (cv : CV.t) (job : Job.t) (now : datetime) (a : Dyn.MatchAnalysis.t) :
  snd (GeminiAIService.calculate_match_score model_generate_content
         json_loads create_matching_prompt cv job now) = Ok a ->
  Dyn.MatchAnalysis.cv_id a
  = match CV.id cv with Some "" | None => "unknown" | Some id => id end
  /\ Dyn.MatchAnalysis.job_id a
     = match Job.id job with Some "" | None => "unknown" | Some id => id end
  /\ Dyn.MatchAnalysis.ai_model_used a = Some "gemini-1.5-flash".
Proof.
  unfold GeminiAIService.calculate_match_score.
  run_cases; simpl_run; try discriminate.
  intros [= <-].
  match goal with
  | Hc : Converters.convert_to_match_analysis _ _ _ _ = Ok _ |- _ =>
      destruct (match_analysis_of_payload _ _ _ _ _ Hc)
        as (H1 & H2 & _ & H4 & _)
  end.
  rewrite H1, H2, H4. unfold GeminiAIService.or_unknown.
  destruct (CV.id cv) as [[|c t]|]; destruct (Job.id job) as [[|c' t']|];
    repeat split.
Qed.

End ServiceRuns.


Lemma service_model_failure_witness :
  GeminiAIService.extract_cv_data (model_fails "quota exceeded")
    (loads_fails "Expecting value") prompt_of "raw text" 0%Z
  = ([GeminiAIService.Generate "raw text"],
     Raise (AIServiceError
              "Failed to extract CV data: Gemini API failed: quota exceeded")).
Proof.
  apply (service_model_failure (model_fails "quota exceeded")
           (loads_fails "Expecting value") prompt_of prompt_of
           match_prompt_of "raw text" "description"
           (cv_of "cv.pdf" "text" [] []) (job_of [] 0 []) 0%Z
           (ValueError "quota exceeded")).
  reflexivity.
Defined.

Lemma extract_cv_data_decoded_witness :
  snd (GeminiAIService.extract_cv_data
         (model_says "Here you are: {...} Anything else?")
         (loads_gives payload_null_level) prompt_of "raw text" 0%Z)
  = Raise (AIServiceError
             "Failed to extract CV data: 'NoneType' object has no attribute 'lower'").
Proof.
  apply (extract_cv_data_decoded
           (model_says "Here you are: {...} Anything else?")
           (loads_gives payload_null_level) prompt_of "raw text" 0%Z
           "Here you are: {...} Anything else?" payload_null_level);
    reflexivity.
Defined.

Lemma calculate_match_score_ids_witness :
  exists a,
    snd (GeminiAIService.calculate_match_score (model_says "{}")
           (loads_gives (PDict [])) match_prompt_of
           (cv_of "cv.pdf" "text" [] []) (job_of [] 0 []) 0%Z) = Ok a
    /\ Dyn.MatchAnalysis.cv_id a = "unknown".
Proof.
  eexists. split; [reflexivity|].
  apply (calculate_match_score_ids (model_says "{}")
           (loads_gives (PDict [])) match_prompt_of
           (cv_of "cv.pdf" "text" [] []) (job_of [] 0 []) 0%Z).
  reflexivity.
Defined.

(** ** The JSON object of a response, continued *)

Lemma occurs_app (c : ascii) (s t : string) :
  occurs c (s ++ t) = occurs c s || occurs c t.
Proof.
  induction s as [|x s IH]; cbn; [reflexivity|].
  now rewrite IH, orb_assoc.
Qed.

Lemma from_first_app (c : ascii) (pre rest : string) :
  occurs c pre = false ->
  from_first c (pre ++ String c rest) = String c rest.
Proof.
  induction pre as [|x pre IH]; cbn.
  - now rewrite Ascii.eqb_refl.
  - intros H. apply orb_false_iff in H as [Hx Hp]. rewrite Hx. now apply IH.
Qed.

Lemma upto_last_app (c : ascii) (s post : string) :
  occurs c post = false -> upto_last c (s ++ post) = upto_last c s.
Proof.
  intros Hpost. induction s as [|x s IH]; cbn.
  - now apply upto_last_empty.
  - now rewrite IH.
Qed.

Lemma upto_last_closed (c : ascii) (body : string) :
  upto_last c (body ++ String c "") = body ++ String c "".
Proof.
  induction body as [|x body IH]; cbn.
  - now rewrite Ascii.eqb_refl.
  - rewrite IH. destruct body; reflexivity.
Qed.

Lemma object_text_wrapped (pre mid post : string) :
  occurs "{" pre = false -> occurs "}" post = false ->
  GeminiAIService._extract_json_from_response
    (pre ++ ("{" ++ mid ++ "}") ++ post)
  = Ok ("{" ++ mid ++ "}").
Proof.
  intros Hpre Hpost. rewrite extract_json_from_response_spec.
  assert (Ho : occurs "{" (pre ++ ("{" ++ mid ++ "}") ++ post) = true).
  { rewrite occurs_app. apply orb_true_iff. right. reflexivity. }
  assert (Hc : occurs "}" (pre ++ ("{" ++ mid ++ "}") ++ post) = true).
  { rewrite occurs_app. apply orb_true_iff. right.
    change (("{" ++ mid ++ "}") ++ post)
      with (String "{" ((mid ++ "}") ++ post)).
    cbn [occurs]. rewrite !occurs_app. cbn [occurs].
    rewrite Ascii.eqb_refl. cbn [orb]. now rewrite !orb_true_r. }
  rewrite Ho, Hc. cbn [andb]. f_equal.
  unfold object_text.
  change (pre ++ ("{" ++ mid ++ "}") ++ post)
    with (pre ++ String "{" ((mid ++ "}") ++ post)).
  rewrite (from_first_app "{" pre _ Hpre).
  change (String "{" ((mid ++ "}") ++ post))
    with ((String "{" mid ++ "}") ++ post).
  rewrite (upto_last_app "}" _ post Hpost).
  apply (upto_last_closed "}" (String "{" mid)).
Qed.

(** X21: an object text that is wrapped in any text without opening brace
    before it and any text without closing brace after it is given back
    exactly by [_extract_json_from_response]. *)
Theorem extract_json_wrapped (pre mid post : string) :
  occurs "{" pre = false -> occurs "}" post = false ->
  GeminiAIService._extract_json_from_response
    (pre ++ ("{" ++ mid ++ "}") ++ post)
  = Ok ("{" ++ mid ++ "}").
Proof. apply object_text_wrapped. Qed.

Lemma extract_json_wrapped_witness :
  GeminiAIService._extract_json_from_response
    ("Here is the JSON: " ++ ("{" ++ "a: {b: 1}" ++ "}") ++ " I hope it helps.")
  = Ok ("{" ++ "a: {b: 1}" ++ "}").
Proof.
  apply (extract_json_wrapped "Here is the JSON: " "a: {b: 1}"
           " I hope it helps."); reflexivity.
Defined.

Lemma append_empty_r (s : string) : s ++ "" = s.
Proof. induction s as [|x s IH]; cbn; [reflexivity | now rewrite IH]. Qed.

Lemma from_first_starts (c : ascii) (s : string) :
  from_first c s = "" \/ exists t, from_first c s = String c t.
Proof.
  induction s as [|x s IH]; cbn; [now left|].
  destruct (Ascii.eqb_spec x c) as [->|]; [right; eauto | exact IH].
Qed.

Lemma upto_last_ends (c : ascii) (s : string) :
  upto_last c s = "" \/ exists m, upto_last c s = m ++ String c "".
Proof.
  induction s as [|x s IH]; cbn; [now left|].
  destruct (upto_last c s) as [|y r] eqn:Eu.
  - destruct (Ascii.eqb_spec x c) as [->|]; [right|now left].
    exists "". reflexivity.
  - right. destruct IH as [H|(m & Hm)]; [discriminate|].
    exists (String x m). cbn. now rewrite Hm.
Qed.

(** X22: what [_extract_json_from_response] returns is empty or it begins
    with an opening brace, ends with a closing brace, and is returned
    unchanged when it is extracted from again; and it is a part of the
    response, with no opening brace before it and no closing brace after
    it. *)
Theorem extract_json_idempotent (response payload : string) :
  GeminiAIService._extract_json_from_response response = Ok payload ->
  (payload = ""
   \/ (exists mid, payload = "{" ++ mid ++ "}")
      /\ GeminiAIService._extract_json_from_response payload = Ok payload)
  /\ exists pre post,
       response = pre ++ payload ++ post
       /\ occurs "{" pre = false /\ occurs "}" post = false.
Proof.
  rewrite extract_json_from_response_spec.
  destruct (occurs "{" response && occurs "}" response); [|discriminate].
  intros [= <-]. split; [|apply object_text_split].
  unfold object_text.
  destruct (from_first_starts "{" response) as [->|(t & ->)];
    [now left|].
  cbn [upto_last].
  destruct (upto_last "}" t) as [|y r] eqn:Eu; [now left|].
  right.
  destruct (upto_last_ends "}" t) as [H|(m & Hm)]; [congruence|].
  rewrite Eu in Hm. rewrite Hm.
  split; [exists m; reflexivity|].
  pose proof (object_text_wrapped "" m "" eq_refl eq_refl) as Hw.
  cbn [append] in Hw. now rewrite append_empty_r in Hw.
Qed.

Lemma extract_json_idempotent_witness :
  exists pre post,
    "Result: {x} {y} end" = pre ++ "{x} {y}" ++ post
    /\ occurs "{" pre = false /\ occurs "}" post = false.
Proof.
  apply (extract_json_idempotent "Result: {x} {y} end" "{x} {y}").
  reflexivity.
Defined.

(** ** Settings and the creation of the service *)

(** X23: the AI service can be created exactly when the Google key is set.
    [is_ai_configured] is weaker: it also holds with an OpenAI key alone,
    and then the creation fails with [ValueError] all the same. *)
Theorem create_ai_service_iff (settings : Settings.t) :
  ((exists s, AIServiceFactory.create_ai_service settings = Ok s)
   <-> Settings.google_api_key settings <> "")
  /\ (Settings.google_api_key settings = "" ->
      AIServiceFactory.create_ai_service settings
      = Raise (ValueError "Google Gemini API key not configured"))
  /\ (Settings.is_ai_configured settings = true <->
      Settings.google_api_key settings <> ""
      \/ Settings.openai_api_key settings <> "").
Proof.
  unfold AIServiceFactory.create_ai_service, AIServiceFactory.init,
    Settings.is_ai_configured.
  destruct (Settings.google_api_key settings) as [|c k];
    destruct (Settings.openai_api_key settings) as [|c' k']; cbn;
    repeat split; try discriminate; try congruence; eauto;
    try (intros [s Hs]; discriminate);
    try (intros [H|H]; congruence);
    try (intros _; left; discriminate);
    try (intros _; right; discriminate).
Qed.

Lemma create_ai_service_iff_witness :
  let settings :=
    Settings.mk "CV Analyzer" "1.0.0" false "0.0.0.0" 8000 "" ""
      "sk-openai" "" 10 "./uploads" ["pdf"] "secret" 30 "INFO" in
  Settings.is_ai_configured settings = true
  /\ AIServiceFactory.create_ai_service settings
     = Raise (ValueError "Google Gemini API key not configured").
Proof.
  intros settings. split.
  - apply (create_ai_service_iff settings). right. discriminate.
  - apply (create_ai_service_iff settings). reflexivity.
Defined.

(** ** The PDF processor *)

Lemma collect_readable (ps : list PDFProcessor.page) (acc : list string) :
  forallb readable ps = true ->
  PDFProcessor.collect ps acc
  = Ok (acc ++ filter Py.truthy (map page_text ps))%list.
Proof.
  revert acc. induction ps as [|p ps IH]; intros acc H; cbn.
  - now rewrite app_nil_r.
  - cbn in H. apply andb_true_iff in H as [Hp Hps].
    destruct p as [[[|c t]|]|e]; try discriminate; cbn.
    + now apply IH.
    + rewrite (IH _ Hps). now rewrite <- app_assoc.
    + now apply IH.
Qed.

Lemma collect_unreadable (ps : list PDFProcessor.page) (acc : list string) :
  forallb readable ps = false ->
  exists e, PDFProcessor.collect ps acc = Raise e.
Proof.
  revert acc. induction ps as [|p ps IH]; intros acc H; cbn in *.
  - discriminate.
  - destruct p as [[[|c t]|]|e]; cbn in *; eauto.
Qed.

(** X24: one extraction method gives all or nothing.  When every page of
    the document can be read, the result is the texts of the pages that
    have one, in order and joined by a newline; when a single page cannot
    be read, or the document cannot be opened, the result is the empty
    text and the text of the other pages is lost. *)
Theorem extract_with_all_or_nothing (pages : result (list PDFProcessor.page)) :
  PDFProcessor.extract_with pages
  = match pages with
    | Ok ps =>
        if forallb readable ps
        then Py.join PDFProcessor.newline
               (filter Py.truthy (map page_text ps))
        else ""
    | Raise _ => ""
    end.
Proof.
  unfold PDFProcessor.extract_with.
  destruct pages as [ps|e]; [|reflexivity].
  cbn [bind]. destruct (forallb readable ps) eqn:E.
  - now rewrite (collect_readable ps [] E).
  - destruct (collect_unreadable ps [] E) as (e & ->). reflexivity.
Qed.

Lemma non_blank_truthy (text : string) :
  non_blank text = true -> Py.truthy text = true.
Proof. destruct text; [discriminate | reflexivity]. Qed.

Lemma meaningful_non_blank (text : string) :
  PDFProcessor.meaningful text = non_blank text.
Proof.
  unfold PDFProcessor.meaningful. destruct (non_blank text) eqn:E.
  - rewrite (non_blank_truthy _ E). exact E.
  - unfold non_blank in E. rewrite E. apply andb_false_r.
Qed.

Lemma extract_text_from_pdf_eq
  (plumber pypdf2 : string -> result (list PDFProcessor.page))
  (content : string) :
  PDFProcessor.extract_text_from_pdf plumber pypdf2 content
  = PDFProcessor.Text
      (chosen_text
         (PDFProcessor._extract_with_pdfplumber plumber content)
         (PDFProcessor._extract_with_pypdf2 pypdf2 content)).
Proof.
  unfold PDFProcessor.extract_text_from_pdf, chosen_text.
  rewrite !meaningful_non_blank.
  destruct (non_blank _); [reflexivity|].
  destruct (non_blank _); reflexivity.
Qed.

(** X25: [extract_text_from_pdf] never raises [PDFProcessingError],
    whatever the two libraries do.  It returns a text that is either empty
    or has something else than white space in it; the text is pdfplumber's
    when that one is not blank, PyPDF2's when only that one is not blank,
    and empty when both are blank or failed. *)
Theorem extract_text_from_pdf_outcome
  (plumber pypdf2 : string -> result (list PDFProcessor.page))
  (content : string) :
  exists text,
    PDFProcessor.extract_text_from_pdf plumber pypdf2 content
    = PDFProcessor.Text text
    /\ (text = "" \/ non_blank text = true)
    /\ (non_blank text = true <->
        non_blank (PDFProcessor._extract_with_pdfplumber plumber content)
        = true
        \/ non_blank (PDFProcessor._extract_with_pypdf2 pypdf2 content)
           = true)
    /\ (non_blank (PDFProcessor._extract_with_pdfplumber plumber content)
        = true ->
        text = PDFProcessor._extract_with_pdfplumber plumber content)
    /\ (non_blank (PDFProcessor._extract_with_pdfplumber plumber content)
        = false ->
        non_blank (PDFProcessor._extract_with_pypdf2 pypdf2 content)
        = true ->
        text = PDFProcessor._extract_with_pypdf2 pypdf2 content).
Proof.
  rewrite extract_text_from_pdf_eq. unfold chosen_text.
  destruct (non_blank (PDFProcessor._extract_with_pdfplumber _ _)) eqn:E1;
    [|destruct (non_blank (PDFProcessor._extract_with_pypdf2 _ _)) eqn:E2];
    eexists; (split; [reflexivity|]).
  all: intuition (auto; try discriminate; try congruence).
Qed.

(** ** The experience of a converted CV *)

Lemma add_number (acc : Dyn.CV.pynum) (v : pyval) :
  is_number v = true ->
  exists acc',
    Dyn.CV.add acc v = Ok acc'
    /\ pynum_value acc' == pynum_value acc + number_value v.
Proof.
  intros H.
  destruct acc as [a|a], v as [|[|]|z|q| | |]; try discriminate H;
    cbn [Dyn.CV.add]; eexists; (split; [reflexivity|]);
    cbn [pynum_value number_value]; rewrite ?inject_Z_plus;
    reflexivity.
Qed.

Lemma add_not_number (acc : Dyn.CV.pynum) (v : pyval) :
  is_number v = false -> exists msg, Dyn.CV.add acc v = Raise (TypeError msg).
Proof.
  intros H.
  destruct acc as [a|a], v as [|[|]|z|q| | |]; try discriminate H;
    cbn; eexists; reflexivity.
Qed.

Lemma sum_from_numbers (values : list pyval) (acc : Dyn.CV.pynum) :
  forallb is_number values = true ->
  exists n,
    Dyn.CV.sum_from values acc = Ok n
    /\ pynum_value n == pynum_value acc + sum_values values.
Proof.
  revert acc. induction values as [|v values IH]; intros acc H;
    cbn [Dyn.CV.sum_from sum_values fold_right].
  - exists acc. split; [reflexivity | now rewrite Qplus_0_r].
  - cbn in H. apply andb_true_iff in H as [Hv Hvs].
    destruct (add_number acc v Hv) as (acc' & -> & E). cbn [bind].
    destruct (IH acc' Hvs) as (n & -> & E').
    exists n. split; [reflexivity|]. rewrite E', E.
    unfold sum_values. now rewrite Qplus_assoc.
Qed.

Lemma sum_from_not_numbers (values : list pyval) (acc : Dyn.CV.pynum) :
  forallb is_number values = false ->
  exists msg, Dyn.CV.sum_from values acc = Raise (TypeError msg).
Proof.
  revert acc. induction values as [|v values IH]; intros acc H; cbn in *.
  - discriminate.
  - destruct (is_number v) eqn:Hv; cbn in H.
    + destruct (add_number acc v Hv) as (acc' & -> & _). cbn [bind].
      now apply IH.
    + destruct (add_not_number acc v Hv) as (msg & ->). now exists msg.
Qed.


(** ** The upload route *)

Section UploadRoute.

Variable settings : Settings.t.
Variable pdfplumber_pages : string -> result (list PDFProcessor.page).
Variable pypdf2_pages : string -> result (list PDFProcessor.page).
Variable extract_cv_data : string -> result Dyn.CV.t.
Variable new_uuid : string.
Variable path_exists : string -> bool.
Variable makedirs : string -> result unit.
Variable write_file : string -> string -> result unit.

Local Abbreviation upload :=
  (CVRoutes.upload_cv settings pdfplumber_pages pypdf2_pages
     extract_cv_data new_uuid path_exists makedirs write_file).

Local Abbreviation raw_text_of content :=
  (chosen_text
     (PDFProcessor._extract_with_pdfplumber pdfplumber_pages content)
     (PDFProcessor._extract_with_pypdf2 pypdf2_pages content)).

Ltac simpl_upload E :=
  cbn -[Py.endswith Py.lower Py.strip Py.truthy Py.str_int Py.path_join
        String.append String.length Z.ltb Z.of_nat
        Settings.max_file_size_bytes PDFProcessor.validate_pdf_file
        PDFProcessor.extract_text_from_pdf
        PDFProcessor._extract_with_pdfplumber
        PDFProcessor._extract_with_pypdf2 chosen_text non_blank
        CVRoutes.extracted_data Dyn.CV.set_id_filename
        Dyn.CV.total_experience_years] in E.

Ltac destruct_upload E :=
  match type of E with
  | context [Py.endswith ?a ?b] => destruct (Py.endswith a b) eqn:?
  | context [Z.ltb ?a ?b] => destruct (Z.ltb a b) eqn:?
  | context [PDFProcessor.validate_pdf_file ?a ?b] =>
      destruct (PDFProcessor.validate_pdf_file a b) eqn:?
  | context [PDFProcessor.extract_text_from_pdf ?a ?b ?c] =>
      rewrite (extract_text_from_pdf_eq a b c) in E
  | context [Py.truthy (Py.strip ?a)] =>
      change (Py.truthy (Py.strip a)) with (non_blank a) in E
  | context [non_blank ?a] => destruct (non_blank a) eqn:?
  | context [extract_cv_data ?a] =>
      destruct (extract_cv_data a) as [?|[?|?|?|?|?]] eqn:?
  | context [path_exists ?a] => destruct (path_exists a) eqn:?
  | context [makedirs ?a] =>
      destruct (makedirs a) as [[]|[?|?|?|?|?]] eqn:?
  | context [write_file ?a ?b] =>
      destruct (write_file a b) as [[]|[?|?|?|?|?]] eqn:?
  | context [CVRoutes.extracted_data ?a] =>
      destruct (CVRoutes.extracted_data a) as [?|[?|?|?|?|?]] eqn:?
  end.

(** The runs of the handler, one goal for each: [r] is what the run
    gives, and the context holds what was observed on the way. *)
Ltac upload_cases file r :=
  let E := fresh "E" in
  remember (upload file) as r eqn:E;
  unfold CVRoutes.upload_cv, CVRoutes.upload_cv_body, CVRoutes.http_error,
    CVRoutes.fail, CVRoutes.lift, CVRoutes.call, CVRoutes.ret in E;
  destruct file as [[[|?c ?t]|] [?content|[?|?|?|?|?]]];
  repeat (simpl_upload E; destruct_upload E); simpl_upload E;
  subst r;
  cbn [CVRoutes.UploadFile.filename CVRoutes.UploadFile.read fst snd
       Py.truthy andb] in *.

(** X27: the upload route answers a failure with status 500 and the detail
    "Internal server error", or with status 503; it never answers with 400
    or 413.  The [HTTPException]s that the handler raises inside its [try]
    for a wrong file name, a file that is too large, an invalid PDF and a
    PDF without text are caught by its own [except Exception]. *)
Theorem upload_cv_statuses
  (file : CVRoutes.UploadFile.t) (e : CVRoutes.HTTPException.t) :
  snd (upload file) = inr e ->
  e = internal_server_error
  \/ exists msg, e = CVRoutes.HTTPException.mk 503 msg.
Proof.
  upload_cases file r; intros H;
    first [ discriminate H | injection H as <- ];
    first [ left; reflexivity | right; eexists; reflexivity ].
Qed.

(** X28: an upload that fails one of the four checks of the handler (the
    file name is missing, empty or does not end with ".pdf"; the content is
    larger than the limit; the content is not a valid PDF; no text can be
    extracted) is answered with status 500 "Internal server error", and
    nothing was done: the AI service was not called and no file written. *)
Theorem upload_cv_rejected (file : CVRoutes.UploadFile.t) :
  pdf_name file = false
  \/ (exists content,
        CVRoutes.UploadFile.read file = Ok content
        /\ ((Settings.max_file_size_bytes settings
             < Z.of_nat (String.length content))%Z
            \/ PDFProcessor.validate_pdf_file pypdf2_pages content = false
            \/ non_blank (raw_text_of content) = false)) ->
  upload file = ([], inr internal_server_error).
Proof.
  unfold pdf_name.
  upload_cases file r;
    intros [H|(content' & Hr & H)]; try reflexivity; try discriminate;
    try (injection Hr as <-; destruct H as [H|[H|H]]);
    try congruence;
    match goal with
    | Hlt : Z.ltb _ _ = false |- _ => apply Z.ltb_ge in Hlt; lia
    end.
Qed.

(** X29: a file is written only at the end of a complete analysis.  When
    the handler writes a file, the upload had passed the four checks and the
    AI service had returned a CV for the extracted text; the content written
    is the content uploaded, the path is the upload directory joined with
    the new identifier, an underscore and the file name, the call of the AI
    service came first and nothing but the creation of a missing upload
    directory came in between. *)
Theorem upload_cv_write_provenance
  (file : CVRoutes.UploadFile.t) (path content : string) :
  In (CVRoutes.WriteFile path content) (fst (upload file)) ->
  pdf_name file = true
  /\ CVRoutes.UploadFile.read file = Ok content
  /\ (Z.of_nat (String.length content)
      <= Settings.max_file_size_bytes settings)%Z
  /\ PDFProcessor.validate_pdf_file pypdf2_pages content = true
  /\ non_blank (raw_text_of content) = true
  /\ (exists cv, extract_cv_data (raw_text_of content) = Ok cv)
  /\ path = Py.path_join (Settings.upload_dir settings)
              (new_uuid ++ "_" ++ name_of file)
  /\ exists between,
       fst (upload file)
       = (CVRoutes.ExtractCV (raw_text_of content) :: between
            ++ [CVRoutes.WriteFile path content])%list
       /\ (between = []
           \/ between = [CVRoutes.MakeDirs (Settings.upload_dir settings)]
              /\ path_exists (Settings.upload_dir settings) = false).
Proof.
  unfold pdf_name, name_of.
  upload_cases file r; intros H; cbn [In] in H;
    repeat match type of H with
      | _ \/ _ => destruct H as [H|H]
      | False => destruct H
      end;
    try discriminate H; injection H as <- <-;
    match goal with
    | Hlt : Z.ltb _ _ = false |- _ => apply Z.ltb_ge in Hlt
    end;
    (repeat (split; [first [assumption | reflexivity | eauto]|]);
     first [ exists []; split; [reflexivity | left; reflexivity]
           | eexists [_]; split;
             [reflexivity | right; split; reflexivity] ]).
Qed.


End UploadRoute.

Lemma upload_cv_statuses_witness :
  snd (CVRoutes.upload_cv Settings.defaults unreadable unreadable
         (plain_cv 0%Z) "u1" no_directory fs_ok write_ok
         (upload_of "notes.txt" "hello"))
  = inr internal_server_error
  /\ (internal_server_error = internal_server_error
      \/ exists msg,
           internal_server_error = CVRoutes.HTTPException.mk 503 msg).
Proof.
  split; [reflexivity|].
  apply (upload_cv_statuses Settings.defaults unreadable unreadable
           (plain_cv 0%Z) "u1" no_directory fs_ok write_ok
           (upload_of "notes.txt" "hello")).
  reflexivity.
Defined.

Lemma upload_cv_rejected_witness :
  CVRoutes.upload_cv Settings.defaults (one_page "Jane Doe")
    (one_page "Jane Doe") (plain_cv 0%Z) "u1" no_directory fs_ok write_ok
    (upload_of "cv.pdf" "not a PDF")
  = ([], inr internal_server_error).
Proof.
  apply upload_cv_rejected.
  right. exists "not a PDF". split; [reflexivity|].
  right. left. reflexivity.
Defined.

Lemma upload_cv_write_provenance_witness :
  In (CVRoutes.WriteFile "./uploads/u1_cv.pdf" "%PDF-1.4")
     (fst (CVRoutes.upload_cv Settings.defaults (one_page "Jane Doe")
             (one_page "") (plain_cv 0%Z) "u1" no_directory fs_ok write_ok
             (upload_of "cv.pdf" "%PDF-1.4")))
  /\ PDFProcessor.validate_pdf_file (one_page "") "%PDF-1.4" = true.
Proof.
  assert (H : In (CVRoutes.WriteFile "./uploads/u1_cv.pdf" "%PDF-1.4")
                (fst (CVRoutes.upload_cv Settings.defaults
                        (one_page "Jane Doe") (one_page "")
                        (plain_cv 0%Z) "u1" no_directory fs_ok write_ok
                        (upload_of "cv.pdf" "%PDF-1.4")))).
  { right. right. left. reflexivity. }
  split; [exact H|].
  exact (proj1 (proj2 (proj2 (proj2
    (upload_cv_write_provenance Settings.defaults (one_page "Jane Doe")
       (one_page "") (plain_cv 0%Z) "u1" no_directory fs_ok write_ok
       (upload_of "cv.pdf" "%PDF-1.4")
       "./uploads/u1_cv.pdf" "%PDF-1.4" H))))).
Defined.

